(** * FC-DenseNet (model.py): a shallow embedding and its properties

    The network of [model.py] is assembled from four kinds of modules
    ([DenseLayer], [TransitionDown], [TransitionUp], [DenseBlock]) and a
    topology builder ([DenseNet103]).  Python exceptions are values of
    [exn]; every call that may raise returns a [result].  The numerical
    kernels of the tensor library (convolution, batch normalisation, pooling,
    dropout) are not part of the repository: they are the operations of the
    class [Torch], specified by the shapes they return and by the conditions
    under which the library returns at all. *)

From stdpp Require Import gmap strings list fin_maps pretty.
From Stdlib Require Import ZArith QArith Lia.

Local Open Scope string_scope.
Local Open Scope Z_scope.

(** ** Exceptions and results *)

Inductive exn : Type :=
| ValueError (msg : string)
| AttributeError (name : string)
| NameError (name : string)
| TypeError (msg : string)
| IndexError (msg : string)
| RuntimeError (msg : string).

Inductive result (A : Type) : Type :=
| Ok (a : A)
| Raise (e : exn).

Arguments Ok {A} a.
Arguments Raise {A} e.

#[export] Instance result_ret : MRet result := λ A a, Ok a.

#[export] Instance result_bind : MBind result := λ A B f m,
  match m with
  | Ok a => f a
  | Raise e => Raise e
  end.

#[export] Instance result_fmap : FMap result := λ A B f m,
  match m with
  | Ok a => Ok (f a)
  | Raise e => Raise e
  end.

Definition raises {A} (m : result A) : Prop := ∃ e, m = Raise e.

(** ** Python sequences: indexing with negative indices, [range], [str] *)

Definition py_len {A} (l : list A) : Z := Z.of_nat (length l).

Definition py_index {A} (l : list A) (i : Z) : result A :=
  let j := if bool_decide (i < 0) then i + py_len l else i in
  if bool_decide (0 ≤ j < py_len l) then
    match l !! Z.to_nat j with
    | Some a => Ok a
    | None => Raise (IndexError "list index out of range")
    end
  else Raise (IndexError "list index out of range").

Definition py_range (n : Z) : list Z := seqZ 0 n.

Definition py_str (i : Z) : string := pretty i.

(** A [for] loop whose body may raise, threading the loop state. *)
Fixpoint for_each {S I} (body : S → I → result S) (s : S) (idx : list I)
  : result S :=
  match idx with
  | [] => Ok s
  | i :: rest => s' ← body s i; for_each body s' rest
  end.

(** ** Tensors

    A 4-d tensor is its size along each axis (batch, channel, height, width)
    and its entries.  Entries have an abstract numeric type [V]. *)

Record tensor (V : Type) : Type := Tensor {
  batch : Z;
  channels : Z;
  height : Z;
  width : Z;
  at_ : Z → Z → Z → Z → V
}.

Arguments Tensor {V} _ _ _ _ _.
Arguments batch {V} _.
Arguments channels {V} _.
Arguments height {V} _.
Arguments width {V} _.
Arguments at_ {V} _ _ _ _ _.

Definition shape {V} (x : tensor V) : Z * Z * Z * Z :=
  (batch x, channels x, height x, width x).

(** A tensor with no zero-sized axis. *)
Definition nonempty {V} (x : tensor V) : Prop :=
  0 < batch x ∧ 0 < channels x ∧ 0 < height x ∧ 0 < width x.

(** The number of entries each channel holds, over the batch and the two
    spatial axes. *)
Definition values_per_channel {V} (x : tensor V) : Z :=
  batch x * height x * width x.

(** [torch.cat([x, y], 1)]: concatenation along the channel axis. *)
Definition cat1 {V} (x y : tensor V) : result (tensor V) :=
  if bool_decide (batch x = batch y ∧ height x = height y ∧ width x = width y)
  then Ok (Tensor (batch x) (channels x + channels y) (height x) (width x)
             (λ b c h w, if bool_decide (c < channels x) then at_ x b c h w
                         else at_ y b (c - channels x) h w))
  else Raise (RuntimeError "Sizes of tensors must match except in dimension 1").

(** [torch.cat([x, y])]: the axis defaults to 0, the batch axis. *)
Definition cat0 {V} (x y : tensor V) : result (tensor V) :=
  if bool_decide (channels x = channels y ∧ height x = height y
                  ∧ width x = width y)
  then Ok (Tensor (batch x + batch y) (channels x) (height x) (width x)
             (λ b c h w, if bool_decide (b < batch x) then at_ x b c h w
                         else at_ y (b - batch x) c h w))
  else Raise (RuntimeError "Sizes of tensors must match except in dimension 0").

(** Start of a Python slice [n:] on an axis of size [len]. *)
Definition slice_start (n len : Z) : Z :=
  if bool_decide (n < 0) then Z.max 0 (n + len) else Z.min n len.

(** [x[:, n:, ...]] *)
Definition slice_channels_from {V} (n : Z) (x : tensor V) : tensor V :=
  let s := slice_start n (channels x) in
  Tensor (batch x) (channels x - s) (height x) (width x)
    (λ b c h w, at_ x b (c + s) h w).

(** ** Library modules: declared metadata

    A module is in training mode when it is constructed; [model.py] never
    switches a module to evaluation mode. *)

Record BatchNorm2d : Type := mkBatchNorm2d {
  num_features : Z;
  training : bool
}.

Record Conv2d : Type := mkConv2d {
  in_channels : Z;
  out_channels : Z;
  kernel_size : Z;
  stride : Z;
  padding : Z;
  bias : bool
}.

Record Dropout2d : Type := mkDropout2d { p : Q }.

Record MaxPool2d : Type := mkMaxPool2d {
  pool_kernel : Z * Z;
  pool_stride : Z
}.

Record ConvTranspose2d : Type := mkConvTranspose2d {
  t_in_channels : Z;
  t_out_channels : Z;
  t_kernel_size : Z;
  t_stride : Z
}.

(** ** The tensor library

    Each operation applies a module to a tensor.  The laws give the shape of
    the result and the conditions under which the library returns one:
    - a module applied to a tensor whose channel count differs from the one
      it was declared with raises;
    - batch normalisation in training mode needs more than one value per
      channel;
    - a convolution needs at least one output channel and a kernel no larger
      than the padded input;
    - max pooling needs a window no larger than the input, so that the
      output is not empty. *)

Class Torch (V : Type) : Type := {
  batch_norm2d : BatchNorm2d → tensor V → result (tensor V);
  relu : tensor V → tensor V;
  conv2d : Conv2d → tensor V → result (tensor V);
  dropout2d : Dropout2d → tensor V → tensor V;
  max_pool2d : MaxPool2d → tensor V → result (tensor V);
  conv_transpose2d : ConvTranspose2d → tensor V → result (tensor V);

  batch_norm2d_shape : ∀ m x,
    channels x = num_features m →
    nonempty x →
    (training m = true → 1 < values_per_channel x) →
    ∃ y, batch_norm2d m x = Ok y ∧ shape y = shape x;
  batch_norm2d_mismatch : ∀ m x,
    channels x ≠ num_features m → raises (batch_norm2d m x);
  relu_shape : ∀ x, shape (relu x) = shape x;
  conv2d_shape : ∀ m x,
    channels x = in_channels m →
    nonempty x →
    0 < out_channels m →
    0 < stride m →
    0 < kernel_size m → 0 ≤ padding m →
    kernel_size m ≤ height x + 2 * padding m →
    kernel_size m ≤ width x + 2 * padding m →
    ∃ y, conv2d m x = Ok y ∧
      shape y = (batch x, out_channels m,
                 (height x + 2 * padding m - kernel_size m) / stride m + 1,
                 (width x + 2 * padding m - kernel_size m) / stride m + 1);
  conv2d_mismatch : ∀ m x,
    channels x ≠ in_channels m → raises (conv2d m x);
  dropout2d_shape : ∀ m x, shape (dropout2d m x) = shape x;
  max_pool2d_shape : ∀ m x,
    nonempty x →
    0 < pool_stride m →
    0 < (pool_kernel m).1 ≤ height x →
    0 < (pool_kernel m).2 ≤ width x →
    ∃ y, max_pool2d m x = Ok y ∧
      shape y = (batch x, channels x,
                 (height x - (pool_kernel m).1) / pool_stride m + 1,
                 (width x - (pool_kernel m).2) / pool_stride m + 1);
  conv_transpose2d_shape : ∀ m x,
    channels x = t_in_channels m →
    ∃ y, conv_transpose2d m x = Ok y ∧
      shape y = (batch x, t_out_channels m,
                 (height x - 1) * t_stride m + t_kernel_size m,
                 (width x - 1) * t_stride m + t_kernel_size m);
  conv_transpose2d_mismatch : ∀ m x,
    channels x ≠ t_in_channels m → raises (conv_transpose2d m x)
}.

(** ** DenseLayer *)

Record DenseLayer : Type := mkDenseLayer {
  dl_n_channels : Z;
  dl_growth_rate : Z;
  dl_bn : BatchNorm2d;
  dl_conv : Conv2d;
  dl_do : Dropout2d
}.

Definition growth_rate_default : Z := 16.

(** [DenseLayer.__init__(self, n_channels, growth_rate)]: the attributes of
    the constructed layer.  The library constructors it calls
    ([nn.BatchNorm2d], [nn.Conv2d]) raise on a negative channel count, in
    which case no layer exists; properties that say a layer is built assume
    positive counts. *)
Definition DenseLayer_init (n_channels growth_rate : Z) : DenseLayer :=
  {| dl_n_channels := n_channels;
     dl_growth_rate := growth_rate;
     dl_bn := mkBatchNorm2d n_channels true;
     dl_conv := mkConv2d n_channels growth_rate 3 1 1 false;
     dl_do := mkDropout2d (2 # 10) |}.

(** [DenseLayer.forward(self, x)] *)
Definition DenseLayer_forward `{Torch V} (self : DenseLayer) (x : tensor V)
  : result (tensor V) :=
  out0 ← relu <$> batch_norm2d (dl_bn self) x;
  out1 ← conv2d (dl_conv self) out0;
  let out2 := dropout2d (dl_do self) out1 in
  cat1 x out2.

(** ** TransitionDown *)

Record TransitionDown : Type := mkTransitionDown {
  td_n_channels_in : Z;
  td_n_channels_out : Z;
  td_bn : BatchNorm2d;
  td_conv : Conv2d;
  td_pool : MaxPool2d;
  td_do : Dropout2d
}.

(** [TransitionDown.__init__(self, n_channels_in, n_channels_out=None)]:
    the attributes of the constructed module.  [nn.BatchNorm2d] and
    [nn.Conv2d] raise on a negative channel count. *)
Definition TransitionDown_init (n_channels_in : Z) (n_channels_out : option Z)
  : TransitionDown :=
  let n_out := match n_channels_out with
               | Some n => n
               | None => n_channels_in
               end in
  {| td_n_channels_in := n_channels_in;
     td_n_channels_out := n_out;
     td_bn := mkBatchNorm2d n_channels_in true;
     td_conv := mkConv2d n_channels_in n_out 1 1 0 true;
     td_pool := mkMaxPool2d (2, 2) 2;
     td_do := mkDropout2d (2 # 10) |}.

(** [TransitionDown.forward(self, x)] *)
Definition TransitionDown_forward `{Torch V} (self : TransitionDown)
    (x : tensor V) : result (tensor V) :=
  out0 ← relu <$> batch_norm2d (td_bn self) x;
  out1 ← conv2d (td_conv self) out0;
  let out2 := dropout2d (td_do self) out1 in
  max_pool2d (td_pool self) out2.

(** ** TransitionUp *)

Record TransitionUp : Type := mkTransitionUp {
  tu_n_channels_in : Z;
  tu_n_channels_out : Z;
  tu_transconv : ConvTranspose2d
}.

(** [TransitionUp.__init__(self, n_channels_in, n_channels_out=None)]: the
    attributes of the constructed module.  [nn.ConvTranspose2d] raises on a
    negative channel count. *)
Definition TransitionUp_init (n_channels_in : Z) (n_channels_out : option Z)
  : TransitionUp :=
  let n_out := match n_channels_out with
               | Some n => n
               | None => n_channels_in
               end in
  {| tu_n_channels_in := n_channels_in;
     tu_n_channels_out := n_out;
     tu_transconv := mkConvTranspose2d n_channels_in n_out 3 2 |}.

(** [TransitionUp.forward(self, x)] *)
Definition TransitionUp_forward `{Torch V} (self : TransitionUp)
    (x : tensor V) : result (tensor V) :=
  conv_transpose2d (tu_transconv self) x.

(** ** Name resolution

    A name that a method does not assign is looked up in the module's global
    namespace, then among the builtins; a name bound in neither raises. *)

Inductive pyval : Type :=
| PyInt (z : Z)
| PyBool (b : bool)
| PyModule (name : string)
| PyClass (name : string)
| PyBuiltin (name : string).

(** The names bound at the top level of [model.py]: its imports and its
    five classes. *)
Definition module_globals : gmap string pyval :=
  list_to_map
    [("torch", PyModule "torch"); ("nn", PyModule "torch.nn");
     ("F", PyModule "torch.nn.functional"); ("init", PyModule "torch.nn.init");
     ("Variable", PyClass "Variable"); ("models", PyModule "torchvision.models");
     ("np", PyModule "numpy"); ("copy", PyModule "copy");
     ("DenseLayer", PyClass "DenseLayer");
     ("TransitionDown", PyClass "TransitionDown");
     ("TransitionUp", PyClass "TransitionUp");
     ("DenseBlock", PyClass "DenseBlock");
     ("DenseNet103", PyClass "DenseNet103")].

(** The builtins [model.py] refers to. *)
Definition builtins : gmap string pyval :=
  list_to_map
    [("len", PyBuiltin "len"); ("range", PyBuiltin "range");
     ("str", PyBuiltin "str"); ("getattr", PyBuiltin "getattr");
     ("setattr", PyBuiltin "setattr"); ("super", PyBuiltin "super");
     ("ValueError", PyClass "ValueError")].

Definition load_global (name : string) : result pyval :=
  match module_globals !! name with
  | Some v => Ok v
  | None =>
      match builtins !! name with
      | Some v => Ok v
      | None => Raise (NameError name)
      end
  end.

(** Truth value of an object, as [not] and [if] test it. *)
Definition truthy (v : pyval) : bool :=
  match v with
  | PyInt z => negb (z =? 0)%Z
  | PyBool b => b
  | _ => true
  end.

(** ** DenseBlock *)

Record DenseBlock : Type := mkDenseBlock {
  db_n_layers : Z;
  db_n_channels : Z;
  db_growth_rate : Z;
  db_n_channels_out : Z;
  db_block : list DenseLayer
}.

(** The loop of [DenseBlock._build_block]: one layer per iteration, the
    channel count growing by [growth_rate] each time. *)
Fixpoint build_layers (n : nat) (n_channels growth_rate : Z)
  : list DenseLayer :=
  match n with
  | O => []
  | S k => DenseLayer_init n_channels growth_rate
             :: build_layers k (n_channels + growth_rate) growth_rate
  end.

(** [DenseBlock._build_block(self)]; [range(n_layers)] is empty when
    [n_layers] is not positive.  When a layer's constructor raises (a
    negative channel count or growth rate), so does [_build_block]. *)
Definition DenseBlock_build_block (n_layers n_channels growth_rate : Z)
  : list DenseLayer :=
  build_layers (Z.to_nat n_layers) n_channels growth_rate.

(** [DenseBlock.__init__(self, n_layers, n_channels, growth_rate,
    keep_input)]: the attributes of the constructed block.  The flag
    [keep_input] selects the declared output channel count and is not stored
    on the object.  The constructor raises when [_build_block] does. *)
Definition DenseBlock_init (n_layers n_channels growth_rate : Z)
    (keep_input : bool) : DenseBlock :=
  {| db_n_layers := n_layers;
     db_n_channels := n_channels;
     db_growth_rate := growth_rate;
     db_n_channels_out :=
       if keep_input then n_channels + growth_rate * n_layers
       else growth_rate * n_layers;
     db_block := DenseBlock_build_block n_layers n_channels growth_rate |}.

(** The [nn.Sequential] stack of the layers, applied to [x]. *)
Fixpoint Sequential_forward `{Torch V} (layers : list DenseLayer)
    (x : tensor V) : result (tensor V) :=
  match layers with
  | [] => Ok x
  | l :: rest => y ← DenseLayer_forward l x; Sequential_forward rest y
  end.

(** [DenseBlock.forward(self, x)].  The method's local names are [self],
    [x] and [out]; [keep_input] and [n_channels] are read as globals. *)
Definition DenseBlock_forward `{Torch V} (self : DenseBlock) (x : tensor V)
  : result (tensor V) :=
  out ← Sequential_forward (db_block self) x;
  keep_input ← load_global "keep_input";
  if negb (truthy keep_input) then
    n_channels ← load_global "n_channels";
    match n_channels with
    | PyInt n => Ok (slice_channels_from n out)
    | PyBool b => Ok (slice_channels_from (if b then 1 else 0) out)
    | _ => Raise (TypeError "slice indices must be integers")
    end
  else Ok out.

(** ** DenseNet103: the object and its attributes

    The network object is its attribute dictionary: [self.name = v] and
    [setattr(self, name, v)] insert, [self.name] and [getattr(self, name)]
    look up.  Only the attributes [model.py] sets are recorded; the base
    class contributes none of the names the constructor reads. *)

Inductive attr : Type :=
| AInt (z : Z)
| AList (l : list Z)
| AConv2d (m : Conv2d)
| ADenseBlock (m : DenseBlock)
| ATransitionDown (m : TransitionDown)
| ATransitionUp (m : TransitionUp).

Abbreviation obj := (gmap string attr).

Definition get_attr (self : obj) (name : string) : result attr :=
  match self !! name with
  | Some a => Ok a
  | None => Raise (AttributeError name)
  end.

Definition as_int (a : attr) : result Z :=
  match a with
  | AInt z => Ok z
  | _ => Raise (TypeError "an integer is required")
  end.

Definition as_list (a : attr) : result (list Z) :=
  match a with
  | AList l => Ok l
  | _ => Raise (TypeError "object is not subscriptable")
  end.

Definition get_int (self : obj) (name : string) : result Z :=
  get_attr self name ≫= as_int.

Definition get_list (self : obj) (name : string) : result (list Z) :=
  get_attr self name ≫= as_list.

(** [m.n_channels_out] for an attribute value [m]. *)
Definition n_channels_out_of (a : attr) : result Z :=
  match a with
  | ADenseBlock m => Ok (db_n_channels_out m)
  | ATransitionDown m => Ok (td_n_channels_out m)
  | ATransitionUp m => Ok (tu_n_channels_out m)
  | _ => Raise (AttributeError "n_channels_out")
  end.

(** The builtin [getattr], applied to its positional arguments. *)
Inductive pyarg : Type :=
| ArgObj (o : obj)
| ArgStr (s : string).

Definition py_getattr (args : list pyarg) : result attr :=
  match args with
  | [] => Raise (TypeError "getattr expected at least 2 arguments, got 0")
  | [_] => Raise (TypeError "getattr expected at least 2 arguments, got 1")
  | [ArgObj o; ArgStr name] => get_attr o name
  | [ArgStr _; ArgStr name] => Raise (AttributeError name)
  | [_; ArgObj _] => Raise (TypeError "attribute name must be string")
  | _ => Raise (TypeError "getattr expected at most 3 arguments")
  end.

(** ** DenseNet103.__init__ *)

(** Lines 193-198: the six configuration attributes. *)
Definition init_fields (growth_rate n_pool n_classes n_channels_first : Z)
    (n_layers_down n_layers_up : list Z) : obj :=
  <["n_layers_up" := AList n_layers_up]>
  (<["n_layers_down" := AList n_layers_down]>
  (<["n_channels_first" := AInt n_channels_first]>
  (<["n_classes" := AInt n_classes]>
  (<["n_pool" := AInt n_pool]>
  (<["growth_rate" := AInt growth_rate]> ∅))))).

(** Lines 200-205: the length validation. *)
Definition check_lengths (n_pool : Z) (n_layers_down n_layers_up : list Z)
  : result unit :=
  if bool_decide (py_len n_layers_down ≠ n_pool) then
    Raise (ValueError "`n_layers_down` must be length `n_pool`")
  else if bool_decide (py_len n_layers_up = n_pool) then
    Raise (ValueError "`n_layers_up` must be length `n_pool`")
  else Ok ().

(** Lines 207-208: the initial convolution. *)
Definition build_conv0 (self : obj) : result obj :=
  n_channels ← get_int self "n_channels";
  n_channels_first ← get_int self "n_channels_first";
  Ok (<["conv0" := AConv2d (mkConv2d n_channels n_channels_first 3 1 1 true)]>
        self).

(** Lines 213-219: one iteration of the downsampling loop. *)
Definition down_step (st : obj * Z) (i : Z) : result (obj * Z) :=
  let '(self, down_channels) := st in
  layers ← get_list self "n_layers_down";
  n_layers ← py_index layers i;
  growth_rate ← get_int self "growth_rate";
  let self :=
    <["down_dblock" +:+ py_str i :=
        ADenseBlock (DenseBlock_init n_layers down_channels growth_rate true)]>
      self in
  blk ← py_getattr [ArgObj self; ArgStr ("down_dblock" +:+ py_str i)];
  down_channels ← n_channels_out_of blk;
  let self :=
    <["td" +:+ py_str i :=
        ATransitionDown (TransitionDown_init down_channels None)]> self in
  Ok (self, down_channels).

(** Lines 210-219: the downsampling path. *)
Definition build_down (n_pool : Z) (self : obj) : result obj :=
  down_channels ← get_int self "n_channels_first";
  fst <$> for_each down_step (self, down_channels) (py_range n_pool).

Definition bottleneck_layers : Z := 15.

(** Lines 221-224: the bottleneck. *)
Definition build_bottleneck (self : obj) : result obj :=
  blk ← get_attr self "dblock4";
  n_channels ← n_channels_out_of blk;
  growth_rate ← get_int self "growth_rate";
  Ok (<["bottleneck" :=
          ADenseBlock
            (DenseBlock_init bottleneck_layers n_channels growth_rate true)]>
        self).

(** Lines 229-236: one iteration of the upsampling loop. *)
Definition up_step (st : obj * Z) (i : Z) : result (obj * Z) :=
  let '(self, up_channels) := st in
  let self :=
    <["tu" +:+ py_str i := ATransitionUp (TransitionUp_init up_channels None)]>
      self in
  layers ← get_list self "n_layers_up";
  n_layers ← py_index layers i;
  growth_rate ← get_int self "growth_rate";
  let self :=
    <["up_dblock" +:+ py_str i :=
        ADenseBlock (DenseBlock_init n_layers up_channels growth_rate false)]>
      self in
  blk ← py_getattr [ArgObj self; ArgStr ("up_dblock" +:+ py_str i)];
  up_channels ← n_channels_out_of blk;
  Ok (self, up_channels).

(** Lines 226-236: the upsampling path. *)
Definition build_up (n_pool : Z) (self : obj) : result obj :=
  blk ← get_attr self "bottleneck";
  up_channels ← n_channels_out_of blk;
  fst <$> for_each up_step (self, up_channels) (py_range n_pool).

(** Lines 238-241: the classification convolution. *)
Definition build_conv1 (self : obj) : result obj :=
  n_pool ← get_int self "n_pool";
  blk ← py_getattr [ArgObj self; ArgStr ("up_dblock" +:+ py_str n_pool)];
  n_channels ← n_channels_out_of blk;
  n_classes ← get_int self "n_classes";
  Ok (<["conv1" := AConv2d (mkConv2d n_channels n_classes 1 1 0 true)]> self).

(** [DenseNet103.__init__]: the constructed object, or the exception. *)
Definition DenseNet103_init (growth_rate n_pool n_classes n_channels_first : Z)
    (n_layers_down n_layers_up : list Z) : result obj :=
  let self := init_fields growth_rate n_pool n_classes n_channels_first
                n_layers_down n_layers_up in
  _ ← check_lengths n_pool n_layers_down n_layers_up;
  self ← build_conv0 self;
  self ← build_down n_pool self;
  self ← build_bottleneck self;
  self ← build_up n_pool self;
  build_conv1 self.

(** The default arguments of the constructor. *)
Definition DenseNet103_default : result obj :=
  DenseNet103_init 16 4 2 48 [4; 5; 7; 10; 12] [12; 10; 7; 5; 4].

(** The declared (input, output) channel counts of a stage module. *)
Definition declared_channels (a : attr) : option (Z * Z) :=
  match a with
  | AConv2d m => Some (in_channels m, out_channels m)
  | ADenseBlock m => Some (db_n_channels m, db_n_channels_out m)
  | ATransitionDown m => Some (td_n_channels_in m, td_n_channels_out m)
  | ATransitionUp m => Some (tu_n_channels_in m, tu_n_channels_out m)
  | AInt _ | AList _ => None
  end.

Definition stage_channels (self : obj) (name : string) : option (Z * Z) :=
  self !! name ≫= declared_channels.

(** ** DenseNet103.forward *)

(** Calling an attribute value on a tensor. *)
Definition call_module `{Torch V} (m : attr) (x : tensor V)
  : result (tensor V) :=
  match m with
  | AConv2d c => conv2d c x
  | ADenseBlock d => DenseBlock_forward d x
  | ATransitionDown t => TransitionDown_forward t x
  | ATransitionUp t => TransitionUp_forward t x
  | AInt _ => Raise (TypeError "'int' object is not callable")
  | AList _ => Raise (TypeError "'list' object is not callable")
  end.

(** Lines 253-259: one iteration of the encoder loop.  [getattr] is given
    the attribute name alone. *)
Definition forward_down_step `{Torch V} (st : tensor V * list (tensor V))
    (i : Z) : result (tensor V * list (tensor V)) :=
  let '(out, dblock_outs) := st in
  dblock ← py_getattr [ArgStr ("down_dblock" +:+ py_str i)];
  td ← py_getattr [ArgStr ("td" +:+ py_str i)];
  db_x ← call_module dblock out;
  let dblock_outs := (dblock_outs ++ [db_x])%list in
  out ← call_module td db_x;
  Ok (out, dblock_outs).

(** Line 270: [dblock_outs[-i]]. *)
Definition skip_for_stage {A} (dblock_outs : list A) (i : Z) : result A :=
  py_index dblock_outs (- i).

(** Lines 268-274: one iteration of the decoder loop. *)
Definition forward_up_step `{Torch V} (dblock_outs : list (tensor V))
    (out : tensor V) (i : Z) : result (tensor V) :=
  tu ← py_getattr [ArgStr ("tu" +:+ py_str i)];
  ublock ← py_getattr [ArgStr ("up_dblock" +:+ py_str i)];
  skip ← skip_for_stage dblock_outs i;
  up ← call_module tu out;
  cat ← cat0 skip up;
  call_module ublock cat.

(** [DenseNet103.forward(self, x)].  The method has no [return] statement:
    when it runs to its end the caller receives [None]. *)
Definition DenseNet103_forward `{Torch V} (self : obj) (x : tensor V)
  : result (option (tensor V)) :=
  conv0 ← get_attr self "conv0";
  in_conv ← call_module conv0 x;
  let out := in_conv in
  n_pool ← get_int self "n_pool";
  '(out, dblock_outs) ← for_each forward_down_step (out, []) (py_range n_pool);
  bottleneck ← get_attr self "bottleneck";
  bneck ← call_module bottleneck out;
  let out := bneck in
  n_pool ← get_int self "n_pool";
  out ← for_each (forward_up_step dblock_outs) out (py_range n_pool);
  conv1 ← get_attr self "conv1";
  classif ← call_module conv1 out;
  Ok None.

(** ** A reference implementation of the kernels

    Integer-valued tensors, all learned weights zero, no dropped channel:
    batch normalisation and dropout return their input, convolutions return
    zeros of the documented shape, pooling takes the maximum over its
    window.  Each operation raises where the library does. *)

Module Reference.

Definition ref_batch_norm2d (m : BatchNorm2d) (x : tensor Z)
  : result (tensor Z) :=
  if bool_decide (channels x = num_features m) then
    if training m && bool_decide (values_per_channel x = 1) then
      Raise (ValueError "Expected more than 1 value per channel when training")
    else Ok x
  else Raise (RuntimeError "running_mean has the wrong number of elements").

Definition ref_relu (x : tensor Z) : tensor Z :=
  Tensor (batch x) (channels x) (height x) (width x)
    (λ b c h w, Z.max 0 (at_ x b c h w)).

Definition ref_conv2d (m : Conv2d) (x : tensor Z) : result (tensor Z) :=
  if bool_decide (channels x = in_channels m) then
    if bool_decide (out_channels m ≤ 0) then
      Raise (RuntimeError "expected weight to be at least 1 at dimension 0")
    else if bool_decide (height x + 2 * padding m < kernel_size m
                         ∨ width x + 2 * padding m < kernel_size m) then
      Raise (RuntimeError "Kernel size can't be greater than actual input size")
    else
      Ok (Tensor (batch x) (out_channels m)
            ((height x + 2 * padding m - kernel_size m) / stride m + 1)
            ((width x + 2 * padding m - kernel_size m) / stride m + 1)
            (λ _ _ _ _, 0))
  else Raise (RuntimeError "input channels do not match the weight").

Definition ref_dropout2d (m : Dropout2d) (x : tensor Z) : tensor Z := x.

Definition ref_max_pool2d (m : MaxPool2d) (x : tensor Z) : result (tensor Z) :=
  let '(kh, kw) := pool_kernel m in
  let s := pool_stride m in
  if bool_decide ((height x - kh) / s + 1 < 1 ∨ (width x - kw) / s + 1 < 1)
  then Raise (RuntimeError "Output size is too small")
  else
    Ok (Tensor (batch x) (channels x)
          ((height x - kh) / s + 1) ((width x - kw) / s + 1)
          (λ b c h w,
             foldr Z.max (at_ x b c (s * h) (s * w))
               (dh ← seqZ 0 kh; dw ← seqZ 0 kw;
                [at_ x b c (s * h + dh) (s * w + dw)]))).

Definition ref_conv_transpose2d (m : ConvTranspose2d) (x : tensor Z)
  : result (tensor Z) :=
  if bool_decide (channels x = t_in_channels m) then
    Ok (Tensor (batch x) (t_out_channels m)
          ((height x - 1) * t_stride m + t_kernel_size m)
          ((width x - 1) * t_stride m + t_kernel_size m)
          (λ _ _ _ _, 0))
  else Raise (RuntimeError "input channels do not match the weight").

#[export, refine] Instance ref_torch : Torch Z := {|
  batch_norm2d := ref_batch_norm2d;
  relu := ref_relu;
  conv2d := ref_conv2d;
  dropout2d := ref_dropout2d;
  max_pool2d := ref_max_pool2d;
  conv_transpose2d := ref_conv_transpose2d
|}.
Proof.
  - intros m x Hc _ Hv. exists x. unfold ref_batch_norm2d.
    rewrite bool_decide_eq_true_2 by done.
    destruct (training m); [|done].
    rewrite bool_decide_eq_false_2; [done|]. specialize (Hv eq_refl). lia.
  - intros m x Hc. unfold ref_batch_norm2d.
    rewrite bool_decide_eq_false_2; [by eexists | done].
  - done.
  - intros m x Hc _ Ho _ _ _ Hh Hw. unfold ref_conv2d.
    rewrite bool_decide_eq_true_2 by done.
    rewrite bool_decide_eq_false_2 by lia.
    rewrite bool_decide_eq_false_2 by lia.
    by eexists.
  - intros m x Hc. unfold ref_conv2d.
    rewrite bool_decide_eq_false_2; [by eexists | done].
  - done.
  - intros [[kh kw] s] x _ Hs [_ Hh] [_ Hw]. unfold ref_max_pool2d; simpl in *.
    pose proof (Z.div_pos (height x - kh) s).
    pose proof (Z.div_pos (width x - kw) s).
    rewrite bool_decide_eq_false_2 by lia. by eexists.
  - intros m x Hc. unfold ref_conv_transpose2d.
    rewrite bool_decide_eq_true_2; [by eexists | done].
  - intros m x Hc. unfold ref_conv_transpose2d.
    rewrite bool_decide_eq_false_2; [by eexists | done].
Defined.

(** An all-zero tensor of the given size. *)
Definition zeros (b c h w : Z) : tensor Z := Tensor b c h w (λ _ _ _ _, 0).

(** A one-stage configuration whose lengths pass the validation, the
    object after its downsampling path, and the same object given a
    bottleneck on the encoder's 40 channels. *)
Definition one_stage_fields : obj := init_fields 16 1 3 8 [2] [2; 2].

Definition one_stage_after_down : obj :=
  <["td0" := ATransitionDown (TransitionDown_init 40 None)]>
    (<["down_dblock0" := ADenseBlock (DenseBlock_init 2 8 16 true)]>
       one_stage_fields).

Definition one_stage_bottleneck : DenseBlock :=
  DenseBlock_init bottleneck_layers 40 16 true.

Definition one_stage_with_bottleneck : obj :=
  <["bottleneck" := ADenseBlock one_stage_bottleneck]> one_stage_after_down.

Definition one_stage_after_up : obj :=
  <["up_dblock0" := ADenseBlock (DenseBlock_init 2 280 16 false)]>
    (<["tu0" := ATransitionUp (TransitionUp_init 280 None)]>
       one_stage_with_bottleneck).

(** A tensor whose entries differ from one another. *)
Definition ramp (b c h w : Z) : tensor Z :=
  Tensor b c h w (λ i j k l, ((i * c + j) * h + k) * w + l).

End Reference.

(** ** Channel counts threaded through the constructor's loops

    Both loops pass the declared output count of the block they just built
    to the next iteration; [thread_channels] is the count that reaches the
    iteration after the given layer counts. *)

Definition block_out (growth_rate : Z) (keep_input : bool) (n_channels : Z)
    (n_layers : Z) : Z :=
  db_n_channels_out (DenseBlock_init n_layers n_channels growth_rate keep_input).

Definition thread_channels (growth_rate : Z) (keep_input : bool)
    (n_channels : Z) (layers : list Z) : Z :=
  foldl (block_out growth_rate keep_input) n_channels layers.

(** * Properties *)

(** ** Results *)

Lemma raises_Raise {A} (e : exn) : raises (@Raise A e).
Proof. by exists e. Qed.

Lemma raises_not_Ok {A} (m : result A) (a : A) : raises m → m ≠ Ok a.
Proof. intros [e ->]. discriminate. Qed.

Lemma raises_bind {A B} (m : result A) (f : A → result B) :
  raises m → raises (m ≫= f).
Proof. intros [e ->]. by exists e. Qed.

Lemma raises_bind_all {A B} (m : result A) (f : A → result B) :
  (∀ a, raises (f a)) → raises (m ≫= f).
Proof. intros Hf. destruct m as [a|e]; [apply Hf | by exists e]. Qed.

Lemma shape_eq {V} (x : tensor V) (B C H W : Z) :
  shape x = (B, C, H, W) ↔
  batch x = B ∧ channels x = C ∧ height x = H ∧ width x = W.
Proof.
  unfold shape. split.
  - intros [= -> -> -> ->]. done.
  - intros (-> & -> & -> & ->). done.
Qed.

Lemma pool_halves (n : Z) : (n - 2) / 2 + 1 = n / 2.
Proof.
  replace n with (n - 2 + 1 * 2) at 2 by lia.
  rewrite Z.div_add by lia. done.
Qed.

Lemma same_padding (n : Z) : (n + 2 * 1 - 3) / 1 + 1 = n.
Proof. rewrite Z.div_1_r. lia. Qed.

Lemma pointwise_conv (n : Z) : (n + 2 * 0 - 1) / 1 + 1 = n.
Proof. rewrite Z.div_1_r. lia. Qed.

(** ** Python sequences *)

Lemma py_index_nonneg {A} (l : list A) (i : Z) (a : A) :
  0 ≤ i → l !! Z.to_nat i = Some a → py_index l i = Ok a.
Proof.
  intros Hi Hl. unfold py_index, py_len.
  apply lookup_lt_Some in Hl as Hlt.
  rewrite (bool_decide_eq_false_2 (i < 0)) by lia.
  rewrite bool_decide_eq_true_2 by lia.
  by rewrite Hl.
Qed.

Lemma py_index_negative {A} (l : list A) (i : Z) :
  i < 0 → py_index l i = py_index l (i + py_len l) ∨ raises (py_index l i).
Proof.
  intros Hi. unfold py_index at 1 3.
  rewrite (bool_decide_eq_true_2 (i < 0)) by lia.
  destruct (decide (0 ≤ i + py_len l < py_len l)) as [Hin|Hout].
  - left. unfold py_index.
    rewrite (bool_decide_eq_false_2 (i + py_len l < 0)) by lia. done.
  - right. rewrite bool_decide_eq_false_2 by done. apply raises_Raise.
Qed.

Lemma nonempty_shape {V} (x y : tensor V) :
  shape y = shape x → nonempty x → nonempty y.
Proof.
  intros Hs (HB & HC & HH & HW). unfold nonempty.
  apply shape_eq in Hs as (-> & -> & -> & ->). done.
Qed.

Lemma values_per_channel_shape {V} (x y : tensor V) :
  shape y = shape x → values_per_channel y = values_per_channel x.
Proof.
  intros Hs. apply shape_eq in Hs as (HB & _ & HH & HW).
  unfold values_per_channel. by rewrite HB, HH, HW.
Qed.

Section Kernels.
Context {V : Type} {T : Torch V}.

(** ** DenseLayer *)

Lemma DenseLayer_forward_ok (n_channels growth_rate : Z) (x : tensor V) :
  channels x = n_channels →
  nonempty x →
  1 < values_per_channel x →
  0 < growth_rate →
  ∃ y, DenseLayer_forward (DenseLayer_init n_channels growth_rate) x = Ok y ∧
       shape y = (batch x, n_channels + growth_rate, height x, width x) ∧
       ∀ b c h w, c < n_channels → at_ y b c h w = at_ x b c h w.
Proof.
  intros HC Hne Hv Hg.
  unfold DenseLayer_forward, DenseLayer_init; simpl.
  destruct (batch_norm2d_shape (mkBatchNorm2d n_channels true) x HC Hne)
    as (y0 & -> & Hy0); [done|].
  simpl.
  pose proof (relu_shape y0) as Hr. rewrite Hy0 in Hr.
  pose proof (nonempty_shape _ _ Hr Hne) as Hne'.
  apply shape_eq in Hr as (HrB & HrC & HrH & HrW).
  destruct Hne as (HB & HC' & HH & HW).
  destruct (conv2d_shape (mkConv2d n_channels growth_rate 3 1 1 false)
              (relu y0))
    as (y1 & -> & Hy1); simpl; [lia | done | lia | lia | lia | lia | lia | lia |].
  rewrite !same_padding in Hy1.
  pose proof (dropout2d_shape (mkDropout2d (2 # 10)) y1) as Hd.
  rewrite Hy1 in Hd. apply shape_eq in Hd as (HdB & HdC & HdH & HdW).
  simpl in HdC.
  unfold cat1. rewrite bool_decide_eq_true_2 by (repeat split; lia).
  eexists; split; [done|]. split.
  - apply shape_eq; simpl. repeat split; lia.
  - intros b c h w Hc; simpl. rewrite bool_decide_eq_true_2; [done | lia].
Qed.

(** ** TransitionDown *)

Lemma TransitionDown_forward_ok (n_channels_in : Z)
    (n_channels_out : option Z) (x : tensor V) :
  channels x = n_channels_in →
  0 < batch x → 0 < channels x → 2 ≤ height x → 2 ≤ width x →
  0 < default n_channels_in n_channels_out →
  ∃ y, TransitionDown_forward
         (TransitionDown_init n_channels_in n_channels_out) x = Ok y ∧
       batch y = batch x ∧
       channels y = default n_channels_in n_channels_out ∧
       height y = height x / 2 ∧ width y = width x / 2.
Proof.
  intros HC HB HC' HH HW Hout.
  assert (nonempty x) as Hne by (repeat split; lia).
  assert (1 < values_per_channel x) as Hv by (unfold values_per_channel; nia).
  unfold TransitionDown_forward, TransitionDown_init; simpl.
  destruct (batch_norm2d_shape (mkBatchNorm2d n_channels_in true) x HC Hne)
    as (y0 & -> & Hy0); [done|].
  simpl.
  pose proof (relu_shape y0) as Hr. rewrite Hy0 in Hr.
  pose proof (nonempty_shape _ _ Hr Hne) as Hne'.
  apply shape_eq in Hr as (HrB & HrC & HrH & HrW).
  set (n_out := match n_channels_out with
                | Some n => n
                | None => n_channels_in
                end).
  assert (0 < n_out) as Hn_out by (unfold n_out; by destruct n_channels_out).
  destruct (conv2d_shape (mkConv2d n_channels_in n_out 1 1 0 true) (relu y0))
    as (y1 & -> & Hy1); simpl;
    [lia | done | lia | lia | lia | lia | lia | lia |].
  rewrite !pointwise_conv in Hy1.
  set (d := dropout2d (mkDropout2d (2 # 10)) y1).
  pose proof (dropout2d_shape (mkDropout2d (2 # 10)) y1) as Hd.
  rewrite Hy1 in Hd. apply shape_eq in Hd as (HdB & HdC & HdH & HdW).
  simpl in HdC. fold d in HdB, HdC, HdH, HdW.
  destruct (max_pool2d_shape (mkMaxPool2d (2, 2) 2) d)
    as (y2 & -> & Hy2); simpl; [repeat split; lia | lia | lia | lia |].
  rewrite !pool_halves in Hy2.
  apply shape_eq in Hy2 as (Hy2B & Hy2C & Hy2H & Hy2W).
  exists y2. split; [done|].
  rewrite Hy2B, Hy2C, Hy2H, Hy2W, HdB, HdC, HdH, HdW, HrB, HrH, HrW.
  repeat split.
Qed.

(** C8 (as amended): TransitionDown applied to a tensor of shape
    (B, C, H, W), with B and C positive, H and W at least 2 (so that the
    2x2 pooling window fits), C the configured input channel count and a
    positive output channel count, returns a tensor of shape
    (B, C_out, H / 2, W / 2) with floor division; C_out is the configured
    output channel count and defaults to C. *)
Theorem TransitionDown_forward_shape (n_channels_in : Z)
    (n_channels_out : option Z) (x : tensor V) (B C H W : Z) :
  shape x = (B, C, H, W) →
  C = n_channels_in →
  0 < B → 0 < C → 2 ≤ H → 2 ≤ W →
  0 < default C n_channels_out →
  ∃ y, TransitionDown_forward
         (TransitionDown_init n_channels_in n_channels_out) x = Ok y ∧
       shape y = (B, default C n_channels_out, H / 2, W / 2).
Proof.
  intros Hx -> HB HC HH HW Hout.
  apply shape_eq in Hx as (<- & HC' & <- & <-).
  destruct (TransitionDown_forward_ok n_channels_in n_channels_out x)
    as (y & Hy & HyB & HyC & HyH & HyW); [done | done | lia | done | done | done |].
  exists y. split; [done|]. by apply shape_eq.
Qed.

(** C6 (as amended): a DenseLayer with a positive growth rate, applied to
    a tensor of shape (B, C, H, W) with positive sizes and more than one
    value per channel (B * H * W > 1, which the layer's batch normalisation
    needs in training mode), C being the channel count the layer was built
    with, returns a tensor of shape (B, C + growth_rate, H, W) whose first C
    channels are the input's. *)
Theorem DenseLayer_forward_shape (n_channels growth_rate : Z) (x : tensor V)
    (B C H W : Z) :
  shape x = (B, C, H, W) →
  C = n_channels →
  0 < B → 0 < C → 0 < H → 0 < W →
  1 < B * H * W →
  0 < growth_rate →
  ∃ y, DenseLayer_forward (DenseLayer_init n_channels growth_rate) x = Ok y ∧
       shape y = (B, C + growth_rate, H, W) ∧
       ∀ b c h w, 0 ≤ c < C → at_ y b c h w = at_ x b c h w.
Proof.
  intros Hx -> HB HC HH HW Hv Hg.
  apply shape_eq in Hx as (<- & HC' & <- & <-).
  destruct (DenseLayer_forward_ok n_channels growth_rate x HC')
    as (y & Hy & Hs & Hkeep); [repeat split; lia | done | done |].
  exists y. repeat split; [done | done |].
  intros b c h w [_ Hc]. by apply Hkeep.
Qed.

(** ** DenseBlock *)

(** The layer stack of a block grows the channel count by [growth_rate] per
    layer and keeps the other sizes. *)
Lemma Sequential_build_layers (n : nat) (n_channels growth_rate : Z)
    (x : tensor V) :
  channels x = n_channels →
  nonempty x →
  1 < values_per_channel x →
  0 < growth_rate →
  ∃ y, Sequential_forward (build_layers n n_channels growth_rate) x = Ok y ∧
       shape y = (batch x, n_channels + Z.of_nat n * growth_rate,
                  height x, width x) ∧
       ∀ b c h w, c < n_channels → at_ y b c h w = at_ x b c h w.
Proof.
  intros Hc Hne Hv Hg. revert n_channels x Hc Hne Hv.
  induction n as [|n IH]; intros c x Hc Hne Hv.
  - exists x. split; [done|]. split; [|done].
    apply shape_eq. repeat split; lia.
  - destruct (DenseLayer_forward_ok c growth_rate x Hc Hne Hv Hg)
      as (y1 & Hy1 & Hs1 & Hk1).
    apply shape_eq in Hs1 as (HB & HC & HH & HW).
    destruct Hne as (HneB & HneC & HneH & HneW).
    destruct (IH (c + growth_rate) y1 HC) as (y & Hy & Hs & Hk).
    { repeat split; lia. }
    { unfold values_per_channel in *. by rewrite HB, HH, HW. }
    exists y. split; [|split].
    + cbn [build_layers Sequential_forward]. rewrite Hy1. exact Hy.
    + apply shape_eq in Hs as (HyB & HyC & HyH & HyW).
      apply shape_eq. repeat split; lia.
    + intros b ch h w Hch. rewrite Hk by lia. by apply Hk1.
Qed.

Lemma DenseBlock_stack_ok (n_layers n_channels growth_rate : Z)
    (keep_input : bool) (x : tensor V) :
  channels x = n_channels →
  nonempty x →
  1 < values_per_channel x →
  0 < growth_rate →
  ∃ out,
    Sequential_forward
      (db_block (DenseBlock_init n_layers n_channels growth_rate keep_input))
      x = Ok out ∧
    shape out = (batch x, n_channels + Z.max 0 n_layers * growth_rate,
                 height x, width x).
Proof.
  intros Hc Hne Hv Hg. simpl. unfold DenseBlock_build_block.
  destruct (Sequential_build_layers (Z.to_nat n_layers) n_channels
              growth_rate x Hc Hne Hv Hg) as (y & Hy & Hs & _).
  exists y. split; [done|]. rewrite Hs.
  by replace (Z.of_nat (Z.to_nat n_layers)) with (Z.max 0 n_layers) by lia.
Qed.

Lemma load_global_keep_input :
  load_global "keep_input" = Raise (NameError "keep_input").
Proof. reflexivity. Qed.

(** Whatever the stack returns, the test of [keep_input] raises. *)
Lemma DenseBlock_forward_after_stack (self : DenseBlock) (x out : tensor V) :
  Sequential_forward (db_block self) x = Ok out →
  DenseBlock_forward self x = Raise (NameError "keep_input").
Proof. intros Hout. unfold DenseBlock_forward. by rewrite Hout. Qed.

Lemma DenseBlock_forward_raises (self : DenseBlock) (x : tensor V) :
  raises (DenseBlock_forward self x).
Proof.
  destruct (Sequential_forward (db_block self) x) as [out|e] eqn:Hout.
  - rewrite (DenseBlock_forward_after_stack self x out Hout).
    apply raises_Raise.
  - unfold DenseBlock_forward. rewrite Hout. apply raises_Raise.
Qed.

Lemma DenseBlock_forward_name_error (n_layers n_channels growth_rate : Z)
    (keep_input : bool) (x : tensor V) :
  channels x = n_channels →
  nonempty x →
  1 < values_per_channel x →
  0 < growth_rate →
  DenseBlock_forward
    (DenseBlock_init n_layers n_channels growth_rate keep_input) x
  = Raise (NameError "keep_input").
Proof.
  intros Hc Hne Hv Hg.
  destruct (DenseBlock_stack_ok n_layers n_channels growth_rate keep_input
              x Hc Hne Hv Hg) as (out & Hout & _).
  by apply DenseBlock_forward_after_stack with out.
Qed.

Lemma example_input_ok (f : Z → Z → Z → Z → V) :
  nonempty (Tensor 1 3 4 4 f) ∧ 1 < values_per_channel (Tensor 1 3 4 4 f).
Proof. split; [repeat split; simpl; lia | by vm_compute]. Qed.

(** C4: a block built with keep_input = False declares num_layers *
    growth_rate output channels; on an input with the block's channel count
    the layer stack returns the full concatenation, and the method then
    raises on the unbound name instead of emitting the sliced tensor. *)
Theorem DenseBlock_drop_input_raises (f : Z → Z → Z → Z → V) :
  let self := DenseBlock_init 2 3 16 false in
  let x := Tensor 1 3 4 4 f in
  db_n_channels_out self = 2 * 16 ∧
  (∃ out, Sequential_forward (db_block self) x = Ok out ∧
          shape out = (1, 3 + 2 * 16, 4, 4)) ∧
  DenseBlock_forward self x = Raise (NameError "keep_input").
Proof.
  intros self x. destruct (example_input_ok f) as [Hne Hv].
  split; [done|]. split.
  - destruct (DenseBlock_stack_ok 2 3 16 false x eq_refl Hne Hv)
      as (out & Hout & Hs); [lia|].
    by exists out.
  - apply DenseBlock_forward_name_error; [done | done | done | lia].
Qed.

(** C5: a block built with keep_input = True declares input_channels +
    num_layers * growth_rate output channels; on an input with the block's
    channel count the layer stack returns a tensor with that many channels,
    and the method then raises on the unbound name instead of returning
    it. *)
Theorem DenseBlock_keep_input_raises (f : Z → Z → Z → Z → V) :
  let self := DenseBlock_init 2 3 16 true in
  let x := Tensor 1 3 4 4 f in
  db_n_channels_out self = 3 + 2 * 16 ∧
  (∃ out, Sequential_forward (db_block self) x = Ok out ∧
          channels out = db_n_channels_out self) ∧
  DenseBlock_forward self x = Raise (NameError "keep_input").
Proof.
  intros self x. destruct (example_input_ok f) as [Hne Hv].
  split; [done|]. split.
  - destruct (DenseBlock_stack_ok 2 3 16 true x eq_refl Hne Hv)
      as (out & Hout & Hs); [lia|].
    exists out. split; [done|].
    by apply shape_eq in Hs as (_ & -> & _).
  - apply DenseBlock_forward_name_error; [done | done | done | lia].
Qed.

(** C10 (as amended): a DenseBlock never emits a tensor.  [forward] always
    raises, whatever the flag the block was built with: when the layer stack
    returns, the exception is the name-resolution error on [keep_input];
    when the stack itself raises, its exception propagates and the test of
    [keep_input] is not reached. *)
Theorem DenseBlock_forward_never_returns (n_layers n_channels growth_rate : Z)
    (keep_input : bool) (x : tensor V) :
  let self := DenseBlock_init n_layers n_channels growth_rate keep_input in
  raises (DenseBlock_forward self x) ∧
  (∀ out, DenseBlock_forward self x ≠ Ok out) ∧
  (∀ out, Sequential_forward (db_block self) x = Ok out →
          DenseBlock_forward self x = Raise (NameError "keep_input")) ∧
  (∀ e, Sequential_forward (db_block self) x = Raise e →
        DenseBlock_forward self x = Raise e).
Proof.
  intros self. repeat split.
  - apply DenseBlock_forward_raises.
  - intros out. apply raises_not_Ok, DenseBlock_forward_raises.
  - apply DenseBlock_forward_after_stack.
  - intros e He. unfold DenseBlock_forward. by rewrite He.
Qed.

End Kernels.

(** ** DenseNet103.forward *)

Lemma skip_for_stage_first {A} (dblock_outs : list A) :
  skip_for_stage dblock_outs 0 = py_index dblock_outs 0.
Proof. reflexivity. Qed.

Lemma skip_for_stage_later {A} (dblock_outs : list A) (i : Z) :
  0 < i ≤ py_len dblock_outs →
  skip_for_stage dblock_outs i = py_index dblock_outs (py_len dblock_outs - i).
Proof.
  intros Hi. unfold skip_for_stage.
  destruct (py_index_negative dblock_outs (- i)) as [->|[e He]]; [lia | | ].
  - f_equal. lia.
  - exfalso. revert He. unfold py_index.
    rewrite (bool_decide_eq_true_2 (- i < 0)) by lia.
    rewrite bool_decide_eq_true_2 by lia.
    destruct (dblock_outs !! Z.to_nat (- i + py_len dblock_outs)) eqn:Hl;
      [discriminate|].
    apply lookup_ge_None in Hl. unfold py_len in *. lia.
Qed.

Lemma cat0_shape {V} (skip up cat : tensor V) :
  cat0 skip up = Ok cat →
  shape cat = (batch skip + batch up, channels skip, height skip, width skip).
Proof.
  unfold cat0. case_bool_decide; [|discriminate]. by intros [= <-].
Qed.

Section Forward.
Context {V : Type} {T : Torch V}.

Lemma forward_down_step_raises (st : tensor V * list (tensor V)) (i : Z) :
  forward_down_step st i
  = Raise (TypeError "getattr expected at least 2 arguments, got 1").
Proof. by destruct st. Qed.

Lemma forward_up_step_raises (dblock_outs : list (tensor V)) (out : tensor V)
    (i : Z) :
  forward_up_step dblock_outs out i
  = Raise (TypeError "getattr expected at least 2 arguments, got 1").
Proof. reflexivity. Qed.

(** With at least one pooling stage the forward pass raises: at the
    attribute lookup that opens the encoder loop, or before it. *)
Lemma DenseNet103_forward_raises (self : obj) (x : tensor V) (n_pool : Z) :
  self !! "n_pool" = Some (AInt n_pool) →
  0 < n_pool →
  raises (DenseNet103_forward self x).
Proof.
  intros Hn Hpos. unfold DenseNet103_forward.
  apply raises_bind_all; intros conv0.
  apply raises_bind_all; intros in_conv.
  unfold get_int, get_attr. rewrite !Hn. cbn [mbind result_bind as_int].
  apply raises_bind. unfold py_range.
  rewrite seqZ_cons by done. cbn [for_each].
  rewrite forward_down_step_raises. apply raises_Raise.
Qed.

(** Without pooling stages the forward pass reaches the bottleneck, which
    raises when it is a DenseBlock. *)
Lemma DenseNet103_forward_raises_at_bottleneck (self : obj) (x : tensor V)
    (n_pool : Z) (blk : DenseBlock) :
  self !! "n_pool" = Some (AInt n_pool) →
  n_pool ≤ 0 →
  self !! "bottleneck" = Some (ADenseBlock blk) →
  raises (DenseNet103_forward self x).
Proof.
  intros Hn Hle Hb. unfold DenseNet103_forward.
  apply raises_bind_all; intros conv0.
  apply raises_bind_all; intros in_conv.
  unfold get_int, get_attr. rewrite !Hn, Hb.
  cbn [mbind result_bind as_int].
  unfold py_range. rewrite seqZ_nil by done.
  cbn [for_each mbind result_bind call_module].
  apply raises_bind, DenseBlock_forward_raises.
Qed.

(** C7: the skip a decoder stage concatenates is [dblock_outs[-i]].  With
    two cached encoder outputs, stage 0 takes entry 0 and stage 1 takes
    entry 1, where the reverse pairing names entries 1 and 0; and the
    decoder step itself raises at its first attribute lookup. *)
Theorem decoder_skip_index_not_reversed (e0 e1 out : tensor V) :
  skip_for_stage [e0; e1] 0 = Ok e0 ∧
  skip_for_stage [e0; e1] 1 = Ok e1 ∧
  py_index [e0; e1] (2 - 1 - 0) = Ok e1 ∧
  py_index [e0; e1] (2 - 1 - 1) = Ok e0 ∧
  forward_up_step [e0; e1] out 0
  = Raise (TypeError "getattr expected at least 2 arguments, got 1").
Proof. repeat split. Qed.

End Forward.

(** ** DenseNet103.__init__ *)

Lemma check_lengths_down (n_pool : Z) (n_layers_down n_layers_up : list Z) :
  py_len n_layers_down ≠ n_pool →
  check_lengths n_pool n_layers_down n_layers_up
  = Raise (ValueError "`n_layers_down` must be length `n_pool`").
Proof. intros Hne. unfold check_lengths. by rewrite bool_decide_eq_true_2. Qed.

Lemma check_lengths_both (n_pool : Z) (n_layers_down n_layers_up : list Z) :
  py_len n_layers_down = n_pool →
  py_len n_layers_up = n_pool →
  check_lengths n_pool n_layers_down n_layers_up
  = Raise (ValueError "`n_layers_up` must be length `n_pool`").
Proof.
  intros Hd Hu. unfold check_lengths.
  rewrite bool_decide_eq_false_2 by (intros ?; done).
  by rewrite bool_decide_eq_true_2.
Qed.

Lemma check_lengths_passes (n_pool : Z) (n_layers_down n_layers_up : list Z) :
  check_lengths n_pool n_layers_down n_layers_up = Ok () ↔
  py_len n_layers_down = n_pool ∧ py_len n_layers_up ≠ n_pool.
Proof.
  unfold check_lengths. split.
  - repeat case_bool_decide; try discriminate. intros _. split; [|done].
    by destruct (decide (py_len n_layers_down = n_pool)).
  - intros [Hd Hu].
    rewrite bool_decide_eq_false_2 by (intros ?; done).
    by rewrite bool_decide_eq_false_2.
Qed.

(** The constructor stores six attributes; [n_channels] is not one. *)
Lemma init_fields_n_channels (growth_rate n_pool n_classes first : Z)
    (n_layers_down n_layers_up : list Z) :
  init_fields growth_rate n_pool n_classes first n_layers_down n_layers_up
    !! "n_channels" = None.
Proof.
  unfold init_fields. rewrite !lookup_insert_ne by done. apply lookup_empty.
Qed.

Lemma build_conv0_raises (growth_rate n_pool n_classes first : Z)
    (n_layers_down n_layers_up : list Z) :
  build_conv0
    (init_fields growth_rate n_pool n_classes first n_layers_down n_layers_up)
  = Raise (AttributeError "n_channels").
Proof.
  unfold build_conv0, get_int, get_attr.
  by rewrite init_fields_n_channels.
Qed.

Lemma DenseNet103_init_down_length (growth_rate n_pool n_classes first : Z)
    (n_layers_down n_layers_up : list Z) :
  py_len n_layers_down ≠ n_pool →
  DenseNet103_init growth_rate n_pool n_classes first n_layers_down n_layers_up
  = Raise (ValueError "`n_layers_down` must be length `n_pool`").
Proof.
  intros Hne. unfold DenseNet103_init. by rewrite check_lengths_down.
Qed.

Lemma DenseNet103_init_up_length (growth_rate n_pool n_classes first : Z)
    (n_layers_down n_layers_up : list Z) :
  py_len n_layers_down = n_pool →
  py_len n_layers_up = n_pool →
  DenseNet103_init growth_rate n_pool n_classes first n_layers_down n_layers_up
  = Raise (ValueError "`n_layers_up` must be length `n_pool`").
Proof.
  intros Hd Hu. unfold DenseNet103_init. by rewrite check_lengths_both.
Qed.

Lemma DenseNet103_init_validated (growth_rate n_pool n_classes first : Z)
    (n_layers_down n_layers_up : list Z) :
  check_lengths n_pool n_layers_down n_layers_up = Ok () →
  DenseNet103_init growth_rate n_pool n_classes first n_layers_down n_layers_up
  = Raise (AttributeError "n_channels").
Proof.
  intros Hok. unfold DenseNet103_init. rewrite Hok.
  cbn [mbind result_bind]. by rewrite build_conv0_raises.
Qed.

(** The default arguments pair n_pool = 4 with five-entry layer lists. *)
Example DenseNet103_default_raises :
  DenseNet103_default
  = Raise (ValueError "`n_layers_down` must be length `n_pool`").
Proof. by apply DenseNet103_init_down_length. Qed.

(** C1: the constructor, given growth_rate=16, n_pool=2, n_classes=3,
    n_channels_first=8, n_layers_down=[2,2], n_layers_up=[2,2], raises the
    length error on [n_layers_up]; no network exists to run forward on. *)
Theorem end_to_end_construction_raises :
  DenseNet103_init 16 2 3 8 [2; 2] [2; 2]
  = Raise (ValueError "`n_layers_up` must be length `n_pool`") ∧
  ∀ net, DenseNet103_init 16 2 3 8 [2; 2] [2; 2] ≠ Ok net.
Proof. split; [by apply DenseNet103_init_up_length | done]. Qed.

(** C2: whenever both layer lists have length n_pool (one entry of each per
    pooling stage), the length validation raises the configuration error
    about [n_layers_up], and so does construction. *)
Theorem matching_lengths_rejected (growth_rate n_classes first : Z)
    (stages : list (Z * Z)) :
  let n_pool := py_len stages in
  let n_layers_down := stages.*1 in
  let n_layers_up := stages.*2 in
  py_len n_layers_down = n_pool ∧ py_len n_layers_up = n_pool ∧
  check_lengths n_pool n_layers_down n_layers_up
  = Raise (ValueError "`n_layers_up` must be length `n_pool`") ∧
  DenseNet103_init growth_rate n_pool n_classes first n_layers_down n_layers_up
  = Raise (ValueError "`n_layers_up` must be length `n_pool`").
Proof.
  intros n_pool n_layers_down n_layers_up.
  assert (py_len n_layers_down = n_pool) as Hd
    by (unfold py_len, n_layers_down, n_pool; by rewrite length_fmap).
  assert (py_len n_layers_up = n_pool) as Hu
    by (unfold py_len, n_layers_up, n_pool; by rewrite length_fmap).
  repeat split; [done | done | |].
  - by apply check_lengths_both.
  - by apply DenseNet103_init_up_length.
Qed.

(** C9: construction raises for every configuration: the length error on
    [n_layers_down] when its length differs from n_pool, the length error on
    [n_layers_up] when both lengths equal n_pool, and otherwise, validation
    passed, the attribute error on [n_channels] raised by the initial
    convolution's first argument. *)
Theorem DenseNet103_init_always_raises (growth_rate n_pool n_classes first : Z)
    (n_layers_down n_layers_up : list Z) :
  let r := DenseNet103_init growth_rate n_pool n_classes first
             n_layers_down n_layers_up in
  raises r ∧ (∀ net, r ≠ Ok net) ∧
  (py_len n_layers_down = n_pool ∧ py_len n_layers_up = n_pool →
   r = Raise (ValueError "`n_layers_up` must be length `n_pool`")) ∧
  (check_lengths n_pool n_layers_down n_layers_up = Ok () →
   r = Raise (AttributeError "n_channels")).
Proof.
  intros r.
  assert (raises r) as Hr.
  { unfold r.
    destruct (decide (py_len n_layers_down = n_pool)) as [Hd|Hd].
    - destruct (decide (py_len n_layers_up = n_pool)) as [Hu|Hu].
      + rewrite DenseNet103_init_up_length by done. apply raises_Raise.
      + rewrite DenseNet103_init_validated; [apply raises_Raise|].
        by apply check_lengths_passes.
    - rewrite DenseNet103_init_down_length by done. apply raises_Raise. }
  repeat split.
  - exact Hr.
  - intros net. by apply raises_not_Ok.
  - intros [Hd Hu]. by apply DenseNet103_init_up_length.
  - apply DenseNet103_init_validated.
Qed.

(** One iteration of the upsampling loop declares the transition with
    [up_channels] in and out, and the block with [up_channels] in: the
    channel count of the skip is not added. *)
Lemma up_step_declared (self : obj) (layers : list Z)
    (up_channels i n_layers growth_rate : Z) :
  self !! "n_layers_up" = Some (AList layers) →
  py_index layers i = Ok n_layers →
  self !! "growth_rate" = Some (AInt growth_rate) →
  ∃ self',
    up_step (self, up_channels) i = Ok (self', growth_rate * n_layers) ∧
    stage_channels self' ("tu" +:+ py_str i) = Some (up_channels, up_channels) ∧
    stage_channels self' ("up_dblock" +:+ py_str i)
    = Some (up_channels, growth_rate * n_layers).
Proof.
  intros Hl Hi Hg. eexists. unfold up_step, get_list, get_int, get_attr.
  cbv zeta. rewrite !lookup_insert_ne by done.
  rewrite Hl. cbn [mbind result_bind as_list].
  rewrite Hi. cbn [mbind result_bind].
  rewrite Hg. cbn [mbind result_bind as_int].
  cbn [py_getattr get_attr]. unfold get_attr. rewrite lookup_insert_eq.
  cbn [mbind result_bind n_channels_out_of DenseBlock_init db_n_channels_out].
  split; [reflexivity|]. unfold stage_channels. split.
  - rewrite lookup_insert_ne by done. by rewrite lookup_insert_eq.
  - by rewrite lookup_insert_eq.
Qed.

(** C3: the channel metadata the constructor's loops declare for
    growth_rate=16, n_pool=2, n_channels_first=8, n_layers_down=[2,2],
    n_layers_up=[2,2].  The encoder chain is consistent (8 -> 40 -> 40 -> 72
    -> 72); the bottleneck reads an attribute that was never set; given a
    bottleneck on the encoder's 72 channels, each decoder block is declared
    with its transition's output channels alone (312, then 32), without the
    72 and 40 channels of the matching encoder skips; and the final
    convolution reads a block one past the last decoder stage. *)
Theorem declared_channel_chain_breaks :
  let self0 := init_fields 16 2 3 8 [2; 2] [2; 2] in
  match build_down 2 self0 with
  | Raise _ => False
  | Ok self1 =>
      stage_channels self1 "down_dblock0" = Some (8, 40) ∧
      stage_channels self1 "td0" = Some (40, 40) ∧
      stage_channels self1 "down_dblock1" = Some (40, 72) ∧
      stage_channels self1 "td1" = Some (72, 72) ∧
      build_bottleneck self1 = Raise (AttributeError "dblock4") ∧
      match
        build_up 2
          (<["bottleneck" :=
               ADenseBlock (DenseBlock_init bottleneck_layers 72 16 true)]>
             self1)
      with
      | Raise _ => False
      | Ok self2 =>
          stage_channels self2 "bottleneck" = Some (72, 312) ∧
          stage_channels self2 "tu0" = Some (312, 312) ∧
          stage_channels self2 "up_dblock0" = Some (312, 32) ∧
          312 ≠ 312 + 72 ∧
          stage_channels self2 "tu1" = Some (32, 32) ∧
          stage_channels self2 "up_dblock1" = Some (32, 32) ∧
          32 ≠ 32 + 40 ∧
          build_conv1 self2 = Raise (AttributeError "up_dblock2")
      end
  end.
Proof.
  vm_compute. repeat split; discriminate.
Qed.

(** ** The properties at concrete inputs *)

Import Reference.

Lemma DenseLayer_forward_shape_witness :
  ∃ y, DenseLayer_forward (DenseLayer_init 3 16) (ramp 2 3 4 5) = Ok y ∧
       shape y = (2, 3 + 16, 4, 5) ∧
       ∀ b c h w, 0 ≤ c < 3 →
         at_ y b c h w = at_ (ramp 2 3 4 5) b c h w.
Proof.
  apply (DenseLayer_forward_shape (T := ref_torch) 3 16
           (ramp 2 3 4 5) 2 3 4 5); first [reflexivity | lia].
Defined.

Lemma TransitionDown_forward_shape_witness :
  ∃ y, TransitionDown_forward (TransitionDown_init 3 None)
         (ramp 1 3 5 4) = Ok y ∧
       shape y = (1, default 3 None, 5 / 2, 4 / 2).
Proof.
  apply (TransitionDown_forward_shape (T := ref_torch) 3 None
           (ramp 1 3 5 4) 1 3 5 4); first [reflexivity | simpl; lia].
Defined.

Lemma DenseBlock_forward_never_returns_witness :
  DenseBlock_forward (DenseBlock_init 2 3 16 false) (ramp 1 3 4 4)
  = Raise (NameError "keep_input").
Proof.
  destruct (DenseBlock_forward_never_returns (T := ref_torch)
              2 3 16 false (ramp 1 3 4 4)) as (_ & _ & Hname & _).
  destruct (DenseBlock_stack_ok (T := ref_torch) 2 3 16 false (ramp 1 3 4 4))
    as (out & Hout & _);
    [reflexivity | repeat split; simpl; lia | by vm_compute | lia |].
  exact (Hname out Hout).
Defined.

(** C6 (as stated) fails: on a tensor of shape (1, 3, 1, 1) each channel
    holds one value, and the layer's batch normalisation, in training mode
    as constructed, raises. *)
Lemma DenseLayer_forward_single_value_raises :
  ¬ (∀ (V : Type) (T : Torch V) (n_channels growth_rate : Z) (x : tensor V)
       (B C H W : Z),
       shape x = (B, C, H, W) →
       C = n_channels →
       ∃ y, DenseLayer_forward (DenseLayer_init n_channels growth_rate) x
            = Ok y ∧
            shape y = (B, C + growth_rate, H, W) ∧
            ∀ b c h w, 0 ≤ c < C → at_ y b c h w = at_ x b c h w).
Proof.
  intros Hall.
  destruct (Hall Z ref_torch 3 16 (ramp 1 3 1 1) 1 3 1 1 eq_refl eq_refl)
    as (y & Hy & _).
  vm_compute in Hy. discriminate Hy.
Qed.

(** C8 (as stated) fails: on a tensor of shape (1, 3, 1, 4) the 2x2
    pooling window does not fit the single row, and max pooling raises. *)
Lemma TransitionDown_forward_single_row_raises :
  ¬ (∀ (V : Type) (T : Torch V) (n_channels_in : Z)
       (n_channels_out : option Z) (x : tensor V) (B C H W : Z),
       shape x = (B, C, H, W) →
       C = n_channels_in →
       ∃ y, TransitionDown_forward
              (TransitionDown_init n_channels_in n_channels_out) x = Ok y ∧
            shape y = (B, default C n_channels_out, H / 2, W / 2)).
Proof.
  intros Hall.
  destruct (Hall Z ref_torch 3 None (ramp 1 3 1 4) 1 3 1 4 eq_refl eq_refl)
    as (y & Hy & _).
  vm_compute in Hy. discriminate Hy.
Qed.

Lemma DenseNet103_init_always_raises_witness :
  check_lengths 2 [2; 2] [2] = Ok () ∧
  DenseNet103_init 16 2 3 8 [2; 2] [2] = Raise (AttributeError "n_channels").
Proof.
  split; [reflexivity|].
  destruct (DenseNet103_init_always_raises 16 2 3 8 [2; 2] [2])
    as (_ & _ & _ & Hattr).
  apply Hattr. reflexivity.
Defined.

(** C10 (as stated) fails: on an input whose channel count is not the
    block's, the first layer's batch normalisation raises before the test
    of [keep_input] is reached. *)
Lemma DenseBlock_forward_not_always_NameError :
  ¬ (∀ (V : Type) (T : Torch V) (self : DenseBlock) (x : tensor V),
       DenseBlock_forward self x = Raise (NameError "keep_input")).
Proof.
  intros Hall.
  specialize (Hall Z ref_torch (DenseBlock_init 1 3 16 true)
                (zeros 1 2 4 4)).
  vm_compute in Hall. discriminate Hall.
Qed.

(** * Further properties of the modules *)

(** ** DenseBlock._build_block *)

Lemma build_layers_length (n : nat) (n_channels growth_rate : Z) :
  length (build_layers n n_channels growth_rate) = n.
Proof.
  revert n_channels. induction n as [|n IH]; intros c; simpl; [done|].
  by rewrite IH.
Qed.

Lemma build_layers_lookup (n i : nat) (n_channels growth_rate : Z) :
  (i < n)%nat →
  build_layers n n_channels growth_rate !! i
  = Some (DenseLayer_init (n_channels + Z.of_nat i * growth_rate) growth_rate).
Proof.
  revert i n_channels. induction n as [|n IH]; intros i c Hi; [lia|].
  destruct i as [|i]; simpl.
  - do 2 f_equal. lia.
  - rewrite IH by lia. do 2 f_equal. lia.
Qed.

(** For positive channel count and growth rate (so that every layer can
    be constructed), the block holds one layer per requested layer (none
    when the count is not positive), and layer i is declared with n_channels
    + i * growth_rate input channels, a positive count. *)
Theorem build_block_layers (n_layers n_channels growth_rate : Z) :
  let block := DenseBlock_build_block n_layers n_channels growth_rate in
  0 < n_channels →
  0 < growth_rate →
  length block = Z.to_nat n_layers ∧
  ∀ i : nat, (i < Z.to_nat n_layers)%nat →
    ∃ l, block !! i = Some l ∧
         dl_n_channels l = n_channels + Z.of_nat i * growth_rate ∧
         0 < dl_n_channels l ∧
         num_features (dl_bn l) = dl_n_channels l ∧
         in_channels (dl_conv l) = dl_n_channels l ∧
         out_channels (dl_conv l) = growth_rate.
Proof.
  intros block Hc Hg. split; [apply build_layers_length|].
  intros i Hi. eexists. split; [by apply build_layers_lookup|].
  simpl. repeat split. nia.
Qed.

Section Blocks.
Context {V : Type} {T : Torch V}.

(** ** DenseLayer, TransitionDown, TransitionUp on a mismatched input *)

Lemma DenseLayer_forward_mismatch (n_channels growth_rate : Z) (x : tensor V) :
  channels x ≠ n_channels →
  raises (DenseLayer_forward (DenseLayer_init n_channels growth_rate) x).
Proof.
  intros Hne. unfold DenseLayer_forward. apply raises_bind.
  destruct (batch_norm2d_mismatch (mkBatchNorm2d n_channels true) x Hne)
    as [e He].
  simpl. rewrite He. by exists e.
Qed.

Lemma TransitionUp_forward_ok (n_channels_in : Z)
    (n_channels_out : option Z) (x : tensor V) :
  channels x = n_channels_in →
  ∃ y, TransitionUp_forward
         (TransitionUp_init n_channels_in n_channels_out) x = Ok y ∧
       batch y = batch x ∧
       channels y = default n_channels_in n_channels_out ∧
       height y = 2 * height x + 1 ∧ width y = 2 * width x + 1.
Proof.
  intros HC. unfold TransitionUp_forward, TransitionUp_init; simpl.
  set (n_out := match n_channels_out with
                | Some n => n
                | None => n_channels_in
                end).
  destruct (conv_transpose2d_shape (mkConvTranspose2d n_channels_in n_out 3 2) x)
    as (y & -> & Hy); [done|].
  apply shape_eq in Hy as (HB & HC' & HH & HW). simpl in *.
  exists y. repeat split; [done | | lia | lia].
  rewrite HC'. unfold n_out. by destruct n_channels_out.
Qed.

(** Each module raises when the input's channel count is not the one it
    was built for. *)
Theorem modules_reject_channel_mismatch (n_channels growth_rate : Z)
    (n_channels_out : option Z) (x : tensor V) :
  channels x ≠ n_channels →
  raises (DenseLayer_forward (DenseLayer_init n_channels growth_rate) x) ∧
  raises (TransitionDown_forward
            (TransitionDown_init n_channels n_channels_out) x) ∧
  raises (TransitionUp_forward
            (TransitionUp_init n_channels n_channels_out) x).
Proof.
  intros Hne. repeat split.
  - by apply DenseLayer_forward_mismatch.
  - unfold TransitionDown_forward. apply raises_bind.
    destruct (batch_norm2d_mismatch (mkBatchNorm2d n_channels true) x Hne)
    as [e He].
    simpl. rewrite He. by exists e.
  - unfold TransitionUp_forward; simpl.
    by apply conv_transpose2d_mismatch.
Qed.

(** ** TransitionUp *)


(** Downsampling then upsampling does not restore an even spatial size:
    on an input with positive batch and channel counts and at least two
    rows and columns, the result has 2 * (H / 2) + 1 rows, which is H when H
    is odd and H + 1 when H is even (likewise for the columns). *)
Theorem down_then_up_spatial (n_channels : Z) (x : tensor V) :
  channels x = n_channels →
  0 < batch x → 0 < n_channels → 2 ≤ height x → 2 ≤ width x →
  ∃ y z,
    TransitionDown_forward (TransitionDown_init n_channels None) x = Ok y ∧
    TransitionUp_forward (TransitionUp_init n_channels None) y = Ok z ∧
    batch z = batch x ∧ channels z = channels x ∧
    height z = height x + (1 - height x `mod` 2) ∧
    width z = width x + (1 - width x `mod` 2).
Proof.
  intros HC HB Hpos HH HW.
  destruct (TransitionDown_forward_ok n_channels None x HC)
    as (y & Hy & HyB & HyC & HyH & HyW); [done | lia | done | done | done |].
  simpl in HyC.
  destruct (TransitionUp_forward_ok n_channels None y HyC)
    as (z & Hz & HzB & HzC & HzH & HzW).
  simpl in HzC.
  exists y, z. repeat split; [done | done | lia | lia | |].
  - rewrite HzH, HyH. pose proof (Z.div_mod (height x) 2). lia.
  - rewrite HzW, HyW. pose proof (Z.div_mod (width x) 2). lia.
Qed.

(** ** The layer stack of a DenseBlock *)

(** On a non-empty input with the block's channel count and more than
    one value per channel, a block with a positive growth rate and a
    non-negative layer count runs its stack to a tensor with n_channels +
    growth_rate * n_layers channels and the input's other sizes: the
    declared output count when the block was built with keep_input, and
    n_channels more than the declared count otherwise. *)
Theorem DenseBlock_stack_channels (n_layers n_channels growth_rate : Z)
    (keep_input : bool) (x : tensor V) :
  let self := DenseBlock_init n_layers n_channels growth_rate keep_input in
  0 ≤ n_layers →
  0 < growth_rate →
  channels x = n_channels →
  nonempty x →
  1 < values_per_channel x →
  ∃ out, Sequential_forward (db_block self) x = Ok out ∧
         batch out = batch x ∧ height out = height x ∧
         width out = width x ∧
         channels out = n_channels + growth_rate * n_layers ∧
         channels out = if keep_input then db_n_channels_out self
                        else n_channels + db_n_channels_out self.
Proof.
  intros self Hn Hg Hc Hne Hv.
  destruct (DenseBlock_stack_ok n_layers n_channels growth_rate keep_input
              x Hc Hne Hv Hg) as (out & Hout & Hs).
  apply shape_eq in Hs as (HB & HC & HH & HW).
  rewrite Z.max_r in HC by lia.
  exists out. repeat split; [done | done | done | done | lia |].
  destruct keep_input; simpl; lia.
Qed.

(** Dense connectivity: on a non-empty input with the block's channel
    count and more than one value per channel, the stack of a block with a
    positive growth rate returns a tensor that carries the block's input
    unchanged in its leading channels. *)
Theorem DenseBlock_stack_keeps_input (n_layers n_channels growth_rate : Z)
    (keep_input : bool) (x : tensor V) :
  let self := DenseBlock_init n_layers n_channels growth_rate keep_input in
  0 < growth_rate →
  channels x = n_channels →
  nonempty x →
  1 < values_per_channel x →
  ∃ out, Sequential_forward (db_block self) x = Ok out ∧
         ∀ b c h w, 0 ≤ c < n_channels → at_ out b c h w = at_ x b c h w.
Proof.
  intros self Hg Hc Hne Hv.
  destruct (Sequential_build_layers (Z.to_nat n_layers) n_channels
              growth_rate x Hc Hne Hv Hg) as (out & Hout & _ & Hk).
  exists out. split; [done|]. intros b c h w [_ Hlt]. by apply Hk.
Qed.

(** A block whose layer count is not positive has an empty stack: it
    passes every input through, whatever its channel count, and forward
    then raises on the unbound name. *)
Theorem DenseBlock_empty_stack (n_layers n_channels growth_rate : Z)
    (keep_input : bool) (x : tensor V) :
  let self := DenseBlock_init n_layers n_channels growth_rate keep_input in
  n_layers ≤ 0 →
  db_block self = [] ∧
  Sequential_forward (db_block self) x = Ok x ∧
  DenseBlock_forward self x = Raise (NameError "keep_input").
Proof.
  intros self Hn.
  assert (db_block self = []) as Hb.
  { simpl. unfold DenseBlock_build_block.
    by replace (Z.to_nat n_layers) with 0%nat by lia. }
  assert (Sequential_forward (db_block self) x = Ok x) as Hs by (by rewrite Hb).
  repeat split; [done | done |].
  by apply DenseBlock_forward_after_stack with x.
Qed.

(** A block with at least one layer raises in its stack, before the test
    of keep_input, on an input whose channel count is not the block's. *)
Theorem DenseBlock_stack_rejects_mismatch (n_layers n_channels growth_rate : Z)
    (keep_input : bool) (x : tensor V) :
  let self := DenseBlock_init n_layers n_channels growth_rate keep_input in
  0 < n_layers →
  channels x ≠ n_channels →
  ∃ e, Sequential_forward (db_block self) x = Raise e ∧
       DenseBlock_forward self x = Raise e.
Proof.
  intros self Hn Hne.
  assert (∃ e, Sequential_forward (db_block self) x = Raise e) as [e He].
  { simpl. unfold DenseBlock_build_block.
    destruct (Z.to_nat n_layers) as [|k] eqn:Hk; [lia|].
    cbn [build_layers Sequential_forward].
    apply raises_bind. by apply DenseLayer_forward_mismatch. }
  exists e. split; [done|]. unfold DenseBlock_forward. by rewrite He.
Qed.

End Blocks.

(** * Further properties of the constructor *)

(** ** Attribute names *)

Lemma py_str_inj (i j : Z) : py_str i = py_str j → i = j.
Proof. unfold py_str. apply (inj pretty). Qed.

Lemma down_dblock_name_inj (i j : Z) :
  "down_dblock" +:+ py_str i = "down_dblock" +:+ py_str j → i = j.
Proof. simpl. intros [= Heq]. by apply py_str_inj. Qed.

Lemma td_name_inj (i j : Z) :
  "td" +:+ py_str i = "td" +:+ py_str j → i = j.
Proof. simpl. intros [= Heq]. by apply py_str_inj. Qed.

Lemma up_dblock_name_inj (i j : Z) :
  "up_dblock" +:+ py_str i = "up_dblock" +:+ py_str j → i = j.
Proof. simpl. intros [= Heq]. by apply py_str_inj. Qed.

Lemma tu_name_inj (i j : Z) :
  "tu" +:+ py_str i = "tu" +:+ py_str j → i = j.
Proof. simpl. intros [= Heq]. by apply py_str_inj. Qed.

(** ** Threaded channel counts *)

Lemma thread_channels_snoc (growth_rate : Z) (keep_input : bool) (c n : Z)
    (layers : list Z) :
  thread_channels growth_rate keep_input c (layers ++ [n])
  = block_out growth_rate keep_input
      (thread_channels growth_rate keep_input c layers) n.
Proof. unfold thread_channels. by rewrite foldl_app. Qed.

Lemma thread_channels_take_S (growth_rate : Z) (keep_input : bool) (c n : Z)
    (layers : list Z) (i : nat) :
  layers !! i = Some n →
  thread_channels growth_rate keep_input c (take (S i) layers)
  = block_out growth_rate keep_input
      (thread_channels growth_rate keep_input c (take i layers)) n.
Proof.
  intros Hi. rewrite (take_S_r _ _ _ Hi). apply thread_channels_snoc.
Qed.

Lemma thread_channels_keep (growth_rate c : Z) (layers : list Z) :
  thread_channels growth_rate true c layers
  = c + growth_rate * foldr Z.add 0 layers.
Proof.
  revert c. induction layers as [|n layers IH]; intros c; simpl.
  - unfold thread_channels; simpl. lia.
  - unfold thread_channels in *; simpl. rewrite IH. unfold block_out; simpl.
    lia.
Qed.

Lemma py_index_lookup {A} (l : list A) (i : nat) (a : A) :
  l !! i = Some a → py_index l (Z.of_nat i) = Ok a.
Proof.
  intros Hl. apply py_index_nonneg; [lia|]. by rewrite Nat2Z.id.
Qed.

(** ** The downsampling loop *)

Lemma down_step_ok (self : obj) (layers : list Z) (c i n g : Z) :
  self !! "n_layers_down" = Some (AList layers) →
  py_index layers i = Ok n →
  self !! "growth_rate" = Some (AInt g) →
  down_step (self, c) i
  = Ok (<["td" +:+ py_str i :=
            ATransitionDown (TransitionDown_init (block_out g true c n) None)]>
          (<["down_dblock" +:+ py_str i :=
               ADenseBlock (DenseBlock_init n c g true)]> self),
        block_out g true c n).
Proof.
  intros Hl Hi Hg. unfold down_step, get_list, get_int, get_attr.
  rewrite Hl. cbn [mbind result_bind as_list].
  rewrite Hi. cbn [mbind result_bind].
  rewrite Hg. cbn [mbind result_bind as_int].
  cbv zeta. cbn [py_getattr]. unfold get_attr. rewrite lookup_insert_eq.
  reflexivity.
Qed.

Lemma down_loop (layers : list Z) (g : Z) (m : nat) :
  ∀ (k : nat) (self : obj) (c : Z),
    self !! "n_layers_down" = Some (AList layers) →
    self !! "growth_rate" = Some (AInt g) →
    (k + m ≤ length layers)%nat →
    ∃ self',
      for_each down_step (self, c) (seqZ (Z.of_nat k) (Z.of_nat m))
      = Ok (self', thread_channels g true c (take m (drop k layers))) ∧
      (∀ name,
         (∀ j : nat, (k ≤ j < k + m)%nat →
            name ≠ "down_dblock" +:+ py_str (Z.of_nat j) ∧
            name ≠ "td" +:+ py_str (Z.of_nat j)) →
         self' !! name = self !! name) ∧
      (∀ (j : nat) (n : Z), (j < m)%nat →
         layers !! (k + j)%nat = Some n →
         let cj := thread_channels g true c (take j (drop k layers)) in
         self' !! ("down_dblock" +:+ py_str (Z.of_nat (k + j)))
         = Some (ADenseBlock (DenseBlock_init n cj g true)) ∧
         self' !! ("td" +:+ py_str (Z.of_nat (k + j)))
         = Some (ATransitionDown
                   (TransitionDown_init (block_out g true cj n) None))).
Proof.
  induction m as [|m IH]; intros k self c Hl Hg Hlen.
  - exists self. split; [done|]. split; [done|]. intros j n Hj. lia.
  - destruct (lookup_lt_is_Some_2 layers k) as [n0 Hn0]; [lia|].
    pose proof (drop_S _ _ _ Hn0) as Hdrop.
    set (self1 :=
           <["td" +:+ py_str (Z.of_nat k) :=
               ATransitionDown
                 (TransitionDown_init (block_out g true c n0) None)]>
             (<["down_dblock" +:+ py_str (Z.of_nat k) :=
                  ADenseBlock (DenseBlock_init n0 c g true)]> self)).
    destruct (IH (S k) self1 (block_out g true c n0)) as (self' & Hrun & Hframe & Hst).
    { unfold self1. by rewrite !lookup_insert_ne by done. }
    { unfold self1. by rewrite !lookup_insert_ne by done. }
    { lia. }
    exists self'. split; [|split].
    + rewrite seqZ_cons by lia.
      replace (Z.succ (Z.of_nat k)) with (Z.of_nat (S k)) by lia.
      replace (Z.pred (Z.of_nat (S m))) with (Z.of_nat m) by lia.
      cbn [for_each].
      rewrite (down_step_ok self layers c (Z.of_nat k) n0 g Hl
                 (py_index_lookup _ _ _ Hn0) Hg).
      cbn [mbind result_bind]. fold self1. rewrite Hrun. by rewrite Hdrop.
    + intros name Hname. rewrite Hframe.
      * destruct (Hname k) as [Hd Ht]; [lia|].
        unfold self1. by rewrite !lookup_insert_ne by done.
      * intros j Hj. apply Hname. lia.
    + intros j n Hj Hn. destruct j as [|j]; cbv zeta.
      * rewrite Nat.add_0_r in Hn |- *. rewrite Hn0 in Hn. injection Hn as <-.
        cbn [take]. change (thread_channels g true c []) with c.
        rewrite !Hframe.
        -- unfold self1. split; [|by rewrite lookup_insert_eq].
           rewrite lookup_insert_ne by done. by rewrite lookup_insert_eq.
        -- intros j Hj'. split; [done|].
           intros Heq%td_name_inj. lia.
        -- intros j Hj'. split; [|done].
           intros Heq%down_dblock_name_inj. lia.
      * replace (k + S j)%nat with (S k + j)%nat in Hn |- * by lia.
        destruct (Hst j n) as [Hb Ht]; [lia | done |].
        rewrite Hdrop. cbn [take]. exact (conj Hb Ht).
Qed.

Lemma seqZ_to_nat (n : Z) : seqZ 0 n = seqZ (Z.of_nat 0) (Z.of_nat (Z.to_nat n)).
Proof. unfold seqZ. by rewrite Nat2Z.id. Qed.

Lemma for_each_app {S I} (body : S → I → result S) (s : S) (l1 l2 : list I) :
  for_each body s (l1 ++ l2)
  = for_each body s l1 ≫= λ s', for_each body s' l2.
Proof.
  revert s. induction l1 as [|i l1 IH]; intros s; [done|].
  cbn [app for_each]. destruct (body s i) as [s1|e]; [apply IH | done].
Qed.

Lemma for_each_preserves {S I} (P : S → Prop) (body : S → I → result S)
    (idx : list I) :
  (∀ s i s', i ∈ idx → P s → body s i = Ok s' → P s') →
  ∀ s s', P s → for_each body s idx = Ok s' → P s'.
Proof.
  induction idx as [|i idx IH]; intros Hbody s s' HP Hrun.
  - cbn in Hrun. by injection Hrun as <-.
  - cbn [for_each] in Hrun. destruct (body s i) as [s1|e] eqn:Hs1; [|done].
    apply (IH (λ s i s' Hi, Hbody s i s' (list_elem_of_further _ _ _ Hi)) s1);
      [|done].
    apply (Hbody s i s1); [apply list_elem_of_here | done | done].
Qed.

Lemma elem_of_py_range (i n : Z) : i ∈ py_range n → 0 ≤ i < n.
Proof.
  unfold py_range. intros Hi%list_elem_of_lookup. destruct Hi as [j Hj].
  apply lookup_seqZ in Hj. lia.
Qed.

(** One iteration of the downsampling loop sets the two attributes of its
    stage and no other. *)
Lemma down_step_frame (self self' : obj) (c c' i : Z) (name : string) :
  down_step (self, c) i = Ok (self', c') →
  name ≠ "down_dblock" +:+ py_str i →
  name ≠ "td" +:+ py_str i →
  self' !! name = self !! name.
Proof.
  unfold down_step. intros Hrun Hd Ht.
  destruct (get_list self "n_layers_down") as [layers|]; [|done].
  cbn [mbind result_bind] in Hrun.
  destruct (py_index layers i) as [n|]; [|done].
  cbn [mbind result_bind] in Hrun.
  destruct (get_int self "growth_rate") as [g|]; [|done].
  cbn [mbind result_bind] in Hrun. cbv zeta in Hrun.
  cbn [py_getattr] in Hrun. unfold get_attr in Hrun.
  rewrite lookup_insert_eq in Hrun. cbn in Hrun.
  injection Hrun as <- _. by rewrite !lookup_insert_ne by done.
Qed.

Lemma build_down_preserves (n_pool : Z) (self self' : obj) (name : string) :
  build_down n_pool self = Ok self' →
  (∀ i, 0 ≤ i < n_pool →
     name ≠ "down_dblock" +:+ py_str i ∧ name ≠ "td" +:+ py_str i) →
  self' !! name = self !! name.
Proof.
  unfold build_down. intros Hrun Hname.
  destruct (get_int self "n_channels_first") as [c|]; [|done].
  cbn [mbind result_bind] in Hrun.
  destruct (for_each down_step (self, c) (py_range n_pool))
    as [[self1 c1]|] eqn:Hloop; [|done].
  cbn in Hrun. injection Hrun as <-.
  apply (for_each_preserves (λ st : obj * Z, st.1 !! name = self !! name)
           down_step (py_range n_pool)) in Hloop; [done | | done].
  intros [s d] i [s' d'] Hi HP Hstep. cbn [fst] in *.
  destruct (Hname i (elem_of_py_range _ _ Hi)) as [Hd Ht].
  by rewrite (down_step_frame s s' d d' i name Hstep Hd Ht).
Qed.

(** The downsampling path sets [down_dblock<i>] and [td<i>] for the stages
    i of range(n_pool), and leaves every other attribute as it was. *)
Theorem build_down_frame (n_pool : Z) (self self' : obj) (name : string) :
  build_down n_pool self = Ok self' →
  (∀ i, 0 ≤ i < n_pool →
     name ≠ "down_dblock" +:+ py_str i ∧ name ≠ "td" +:+ py_str i) →
  self' !! name = self !! name.
Proof. apply build_down_preserves. Qed.

(** After the downsampling path the bottleneck step raises: it reads
    [self.dblock4], and the path stores its blocks as [down_dblock<i>]. *)
Theorem build_bottleneck_after_down (n_pool : Z) (self self' : obj) :
  self !! "dblock4" = None →
  build_down n_pool self = Ok self' →
  build_bottleneck self' = Raise (AttributeError "dblock4").
Proof.
  intros Hnone Hrun. unfold build_bottleneck, get_attr.
  rewrite (build_down_preserves n_pool self self' "dblock4" Hrun);
    [by rewrite Hnone|].
  intros i _. split; done.
Qed.

Lemma foldr_add_nonneg (l : list Z) :
  Forall (λ n, 0 ≤ n) l → 0 ≤ foldr Z.add 0 l.
Proof. induction 1 as [|n l Hn _ IH]; cbn [foldr]; lia. Qed.

Lemma foldr_add_snoc (l : list Z) (n : Z) :
  foldr Z.add 0 (l ++ [n]) = foldr Z.add 0 l + n.
Proof. induction l as [|a l IH]; cbn [app foldr]; lia. Qed.

(** The encoder's declared channel counts, for a positive growth rate, a
    positive n_channels_first and non-negative layer counts (so that every
    module can be constructed): stage i's block is declared with c_i input
    and c_i + growth_rate * n_i output channels and its transition with that
    output count in and out, where c_i is n_channels_first plus growth_rate
    times the layer counts of the stages before i, a positive count.  So
    each module's declared input is the declared output of the module before
    it. *)
Theorem build_down_chain (self : obj) (layers : list Z) (g first n_pool : Z) :
  self !! "n_layers_down" = Some (AList layers) →
  self !! "growth_rate" = Some (AInt g) →
  self !! "n_channels_first" = Some (AInt first) →
  n_pool ≤ py_len layers →
  0 < g →
  0 < first →
  Forall (λ n, 0 ≤ n) layers →
  ∃ self', build_down n_pool self = Ok self' ∧
    ∀ (i : nat) (n : Z), Z.of_nat i < n_pool → layers !! i = Some n →
      let c := first + g * foldr Z.add 0 (take i layers) in
      0 < c ∧
      stage_channels self' ("down_dblock" +:+ py_str (Z.of_nat i))
      = Some (c, c + g * n) ∧
      stage_channels self' ("td" +:+ py_str (Z.of_nat i))
      = Some (c + g * n, c + g * n) ∧
      first + g * foldr Z.add 0 (take (S i) layers) = c + g * n.
Proof.
  intros Hl Hg Hf Hlen Hgpos Hfpos Hnn. unfold py_len in Hlen.
  destruct (down_loop layers g (Z.to_nat n_pool) 0 self first Hl Hg)
    as (self' & Hrun & _ & Hst); [lia|].
  exists self'. split.
  - unfold build_down, get_int, get_attr. rewrite Hf.
    cbn [mbind result_bind as_int]. unfold py_range.
    rewrite seqZ_to_nat, Hrun. done.
  - intros i n Hi Hn. cbv zeta.
    destruct (Hst i n) as [Hb Ht]; [lia | done |].
    cbn [Nat.add] in Hb, Ht. change (drop 0 layers) with layers in Hb, Ht.
    rewrite thread_channels_keep in Hb, Ht.
    unfold stage_channels. rewrite Hb, Ht. cbn.
    pose proof (foldr_add_nonneg (take i layers) (Forall_take _ _ _ Hnn)).
    repeat split; [nia|].
    rewrite (take_S_r _ _ _ Hn), foldr_add_snoc. lia.
Qed.

(** ** The upsampling loop *)

Lemma thread_channels_drop_input (g c : Z) (layers : list Z) (i : nat) :
  thread_channels g false c (take i layers)
  = match i with
    | O => c
    | S i' => match layers !! i' with
              | Some n => g * n
              | None => thread_channels g false c layers
              end
    end.
Proof.
  destruct i as [|i]; [done|].
  destruct (layers !! i) as [n|] eqn:Hn.
  - by rewrite (thread_channels_take_S _ _ _ _ _ _ Hn).
  - apply lookup_ge_None in Hn. by rewrite take_ge by lia.
Qed.

Lemma up_step_ok (self : obj) (layers : list Z) (c i n g : Z) :
  self !! "n_layers_up" = Some (AList layers) →
  py_index layers i = Ok n →
  self !! "growth_rate" = Some (AInt g) →
  up_step (self, c) i
  = Ok (<["up_dblock" +:+ py_str i :=
            ADenseBlock (DenseBlock_init n c g false)]>
          (<["tu" +:+ py_str i := ATransitionUp (TransitionUp_init c None)]>
             self),
        block_out g false c n).
Proof.
  intros Hl Hi Hg. unfold up_step, get_list, get_int, get_attr.
  cbv zeta. rewrite !lookup_insert_ne by done.
  rewrite Hl. cbn [mbind result_bind as_list].
  rewrite Hi. cbn [mbind result_bind].
  rewrite Hg. cbn [mbind result_bind as_int].
  cbn [py_getattr]. unfold get_attr. rewrite lookup_insert_eq.
  reflexivity.
Qed.

Lemma up_loop (layers : list Z) (g : Z) (m : nat) :
  ∀ (k : nat) (self : obj) (c : Z),
    self !! "n_layers_up" = Some (AList layers) →
    self !! "growth_rate" = Some (AInt g) →
    (k + m ≤ length layers)%nat →
    ∃ self',
      for_each up_step (self, c) (seqZ (Z.of_nat k) (Z.of_nat m))
      = Ok (self', thread_channels g false c (take m (drop k layers))) ∧
      (∀ name,
         (∀ j : nat, (k ≤ j < k + m)%nat →
            name ≠ "tu" +:+ py_str (Z.of_nat j) ∧
            name ≠ "up_dblock" +:+ py_str (Z.of_nat j)) →
         self' !! name = self !! name) ∧
      (∀ (j : nat) (n : Z), (j < m)%nat →
         layers !! (k + j)%nat = Some n →
         let cj := thread_channels g false c (take j (drop k layers)) in
         self' !! ("tu" +:+ py_str (Z.of_nat (k + j)))
         = Some (ATransitionUp (TransitionUp_init cj None)) ∧
         self' !! ("up_dblock" +:+ py_str (Z.of_nat (k + j)))
         = Some (ADenseBlock (DenseBlock_init n cj g false))).
Proof.
  induction m as [|m IH]; intros k self c Hl Hg Hlen.
  - exists self. split; [done|]. split; [done|]. intros j n Hj. lia.
  - destruct (lookup_lt_is_Some_2 layers k) as [n0 Hn0]; [lia|].
    pose proof (drop_S _ _ _ Hn0) as Hdrop.
    set (self1 :=
           <["up_dblock" +:+ py_str (Z.of_nat k) :=
               ADenseBlock (DenseBlock_init n0 c g false)]>
             (<["tu" +:+ py_str (Z.of_nat k) :=
                  ATransitionUp (TransitionUp_init c None)]> self)).
    destruct (IH (S k) self1 (block_out g false c n0))
      as (self' & Hrun & Hframe & Hst).
    { unfold self1. by rewrite !lookup_insert_ne by done. }
    { unfold self1. by rewrite !lookup_insert_ne by done. }
    { lia. }
    exists self'. split; [|split].
    + rewrite seqZ_cons by lia.
      replace (Z.succ (Z.of_nat k)) with (Z.of_nat (S k)) by lia.
      replace (Z.pred (Z.of_nat (S m))) with (Z.of_nat m) by lia.
      cbn [for_each].
      rewrite (up_step_ok self layers c (Z.of_nat k) n0 g Hl
                 (py_index_lookup _ _ _ Hn0) Hg).
      cbn [mbind result_bind]. fold self1. rewrite Hrun. by rewrite Hdrop.
    + intros name Hname. rewrite Hframe.
      * destruct (Hname k) as [Ht Hu]; [lia|].
        unfold self1. by rewrite !lookup_insert_ne by done.
      * intros j Hj. apply Hname. lia.
    + intros j n Hj Hn. destruct j as [|j]; cbv zeta.
      * rewrite Nat.add_0_r in Hn |- *. rewrite Hn0 in Hn. injection Hn as <-.
        cbn [take]. change (thread_channels g false c []) with c.
        rewrite !Hframe.
        -- unfold self1. split; [|by rewrite lookup_insert_eq].
           rewrite lookup_insert_ne by done. by rewrite lookup_insert_eq.
        -- intros j Hj'. split; [done|].
           intros Heq%up_dblock_name_inj. lia.
        -- intros j Hj'. split; [|done].
           intros Heq%tu_name_inj. lia.
      * replace (k + S j)%nat with (S k + j)%nat in Hn |- * by lia.
        destruct (Hst j n) as [Ht Hb]; [lia | done |].
        rewrite Hdrop. cbn [take]. exact (conj Ht Hb).
Qed.

Lemma py_index_out_of_range {A} (l : list A) (i : Z) :
  py_len l ≤ i → py_index l i = Raise (IndexError "list index out of range").
Proof.
  intros Hi. unfold py_index. pose proof (Zle_0_nat (length l)).
  unfold py_len in *.
  rewrite (bool_decide_eq_false_2 (i < 0)) by lia.
  by rewrite bool_decide_eq_false_2 by lia.
Qed.

(** One iteration of the upsampling loop sets the two attributes of its
    stage and no other. *)
Lemma up_step_frame (self self' : obj) (c c' i : Z) (name : string) :
  up_step (self, c) i = Ok (self', c') →
  name ≠ "tu" +:+ py_str i →
  name ≠ "up_dblock" +:+ py_str i →
  self' !! name = self !! name.
Proof.
  unfold up_step. cbv zeta. intros Hrun Ht Hu.
  destruct (get_list _ "n_layers_up") as [layers|]; [|done].
  cbn [mbind result_bind] in Hrun.
  destruct (py_index layers i) as [n|]; [|done].
  cbn [mbind result_bind] in Hrun.
  destruct (get_int _ "growth_rate") as [g|]; [|done].
  cbn [mbind result_bind py_getattr] in Hrun. unfold get_attr in Hrun.
  rewrite lookup_insert_eq in Hrun. cbn in Hrun.
  injection Hrun as <- _. by rewrite !lookup_insert_ne by done.
Qed.

Lemma build_up_preserves (n_pool : Z) (self self' : obj) (name : string) :
  build_up n_pool self = Ok self' →
  (∀ i, 0 ≤ i < n_pool →
     name ≠ "tu" +:+ py_str i ∧ name ≠ "up_dblock" +:+ py_str i) →
  self' !! name = self !! name.
Proof.
  unfold build_up. intros Hrun Hname.
  destruct (get_attr self "bottleneck") as [blk|]; [|done].
  cbn [mbind result_bind] in Hrun.
  destruct (n_channels_out_of blk) as [c|]; [|done].
  cbn [mbind result_bind] in Hrun.
  destruct (for_each up_step (self, c) (py_range n_pool))
    as [[self1 c1]|] eqn:Hloop; [|done].
  cbn in Hrun. injection Hrun as <-.
  apply (for_each_preserves (λ st : obj * Z, st.1 !! name = self !! name)
           up_step (py_range n_pool)) in Hloop; [done | | done].
  intros [s d] i [s' d'] Hi HP Hstep. cbn [fst] in *.
  destruct (Hname i (elem_of_py_range _ _ Hi)) as [Ht Hu].
  by rewrite (up_step_frame s s' d d' i name Hstep Ht Hu).
Qed.

(** The upsampling path sets [tu<i>] and [up_dblock<i>] for the stages i of
    range(n_pool), and leaves every other attribute as it was. *)
Theorem build_up_frame (n_pool : Z) (self self' : obj) (name : string) :
  build_up n_pool self = Ok self' →
  (∀ i, 0 ≤ i < n_pool →
     name ≠ "tu" +:+ py_str i ∧ name ≠ "up_dblock" +:+ py_str i) →
  self' !! name = self !! name.
Proof. apply build_up_preserves. Qed.

(** After the upsampling path the final convolution raises: it reads
    [up_dblock<n_pool>], and the path's last block is
    [up_dblock<n_pool - 1>]. *)
Theorem build_conv1_after_up (n_pool : Z) (self self' : obj) :
  self !! "n_pool" = Some (AInt n_pool) →
  self !! ("up_dblock" +:+ py_str n_pool) = None →
  build_up n_pool self = Ok self' →
  build_conv1 self'
  = Raise (AttributeError ("up_dblock" +:+ py_str n_pool)).
Proof.
  intros Hn Hnone Hrun.
  assert (self' !! "n_pool" = Some (AInt n_pool)) as Hn'.
  { rewrite (build_up_preserves n_pool self self' "n_pool" Hrun); [done|].
    intros i _. split; done. }
  assert (self' !! ("up_dblock" +:+ py_str n_pool) = None) as Hnone'.
  { rewrite (build_up_preserves n_pool self self' _ Hrun); [done|].
    intros i Hi. split; [done|]. intros Heq%up_dblock_name_inj. lia. }
  unfold build_conv1, get_int, get_attr. rewrite Hn'.
  cbn [mbind result_bind as_int]. unfold py_getattr, get_attr.
  by rewrite Hnone'.
Qed.

(** The decoder's declared channel counts, for a positive growth rate,
    positive layer counts and a bottleneck with a positive declared output
    (so that every module can be constructed): stage i's transition is
    declared with c_i channels in and out and its block with c_i input and
    growth_rate * n_i output channels, where c_0 is the bottleneck's
    declared output and c_i, for i > 0, the declared output of the block of
    stage i - 1; all these counts are positive.  No stage adds the channel
    count of an encoder skip. *)
Theorem build_up_declared (self : obj) (layers : list Z) (blk : DenseBlock)
    (g n_pool : Z) :
  self !! "n_layers_up" = Some (AList layers) →
  self !! "growth_rate" = Some (AInt g) →
  self !! "bottleneck" = Some (ADenseBlock blk) →
  n_pool ≤ py_len layers →
  0 < g →
  0 < db_n_channels_out blk →
  Forall (λ n, 0 < n) layers →
  ∃ self', build_up n_pool self = Ok self' ∧
    ∀ (i : nat) (n : Z), Z.of_nat i < n_pool → layers !! i = Some n →
      let c := match i with
               | O => db_n_channels_out blk
               | S i' => g * default 0 (layers !! i')
               end in
      0 < c ∧ 0 < g * n ∧
      stage_channels self' ("tu" +:+ py_str (Z.of_nat i)) = Some (c, c) ∧
      stage_channels self' ("up_dblock" +:+ py_str (Z.of_nat i))
      = Some (c, g * n).
Proof.
  intros Hl Hg Hb Hlen Hgpos Hbpos Hpos. unfold py_len in Hlen.
  destruct (up_loop layers g (Z.to_nat n_pool) 0 self (db_n_channels_out blk)
              Hl Hg) as (self' & Hrun & _ & Hst); [lia|].
  exists self'. split.
  - unfold build_up, get_attr. rewrite Hb.
    cbn [mbind result_bind n_channels_out_of]. unfold py_range.
    rewrite seqZ_to_nat, Hrun. done.
  - intros i n Hi Hn. cbv zeta.
    destruct (Hst i n) as [Ht Hu]; [lia | done |].
    cbn [Nat.add] in Ht, Hu. change (drop 0 layers) with layers in Ht, Hu.
    rewrite thread_channels_drop_input in Ht, Hu.
    unfold stage_channels. rewrite Ht, Hu. cbn.
    pose proof (Forall_lookup_1 _ _ _ _ Hpos Hn) as Hnpos. cbn in Hnpos.
    destruct i as [|i]; [repeat split; [done | nia]|].
    destruct (layers !! i) as [n'|] eqn:Hn'.
    + pose proof (Forall_lookup_1 _ _ _ _ Hpos Hn') as Hn'pos. cbn in Hn'pos.
      cbn. repeat split; nia.
    + apply lookup_ge_None in Hn'. apply lookup_lt_Some in Hn. lia.
Qed.

Lemma up_step_index_error (self : obj) (layers : list Z) (c i : Z) :
  self !! "n_layers_up" = Some (AList layers) →
  py_len layers ≤ i →
  up_step (self, c) i = Raise (IndexError "list index out of range").
Proof.
  intros Hl Hi. unfold up_step. cbv zeta. unfold get_list, get_attr.
  rewrite lookup_insert_ne by done. rewrite Hl.
  cbn [mbind result_bind as_list].
  by rewrite py_index_out_of_range.
Qed.

(** With fewer entries in [n_layers_up] than pooling stages, the
    upsampling path raises IndexError at the first stage without an entry,
    provided the stages before it can be constructed: a positive growth
    rate, positive layer counts and a bottleneck with a positive declared
    output. *)
Theorem build_up_short_list (self : obj) (layers : list Z) (blk : DenseBlock)
    (g n_pool : Z) :
  self !! "n_layers_up" = Some (AList layers) →
  self !! "growth_rate" = Some (AInt g) →
  self !! "bottleneck" = Some (ADenseBlock blk) →
  py_len layers < n_pool →
  0 < g →
  0 < db_n_channels_out blk →
  Forall (λ n, 0 < n) layers →
  build_up n_pool self = Raise (IndexError "list index out of range").
Proof.
  intros Hl Hg Hb Hlen _ _ _. unfold py_len in Hlen.
  destruct (up_loop layers g (length layers) 0 self (db_n_channels_out blk)
              Hl Hg) as (self1 & Hrun & Hframe & _); [lia|].
  unfold build_up, get_attr. rewrite Hb.
  cbn [mbind result_bind n_channels_out_of]. unfold py_range.
  replace n_pool
    with (Z.of_nat (length layers) + (n_pool - Z.of_nat (length layers)))
    by lia.
  rewrite seqZ_app by lia. rewrite for_each_app.
  rewrite (seqZ_to_nat (Z.of_nat (length layers))), Nat2Z.id.
  rewrite Hrun. cbn [mbind result_bind].
  rewrite seqZ_cons by lia. cbn [for_each].
  rewrite (up_step_index_error self1 layers); [done | | unfold py_len; lia].
  rewrite (Hframe "n_layers_up"); [done|]. intros j _. split; done.
Qed.

(** * Further properties of the validation and of the forward pass *)

(** The three outcomes of the length validation: it passes exactly when
    [n_layers_down] has length n_pool and [n_layers_up] has not; it raises
    the error about [n_layers_down] exactly when that list's length is not
    n_pool; it raises the error about [n_layers_up] exactly when both
    lengths are n_pool. *)
Theorem check_lengths_outcomes (n_pool : Z) (n_layers_down n_layers_up : list Z) :
  let r := check_lengths n_pool n_layers_down n_layers_up in
  (r = Ok () ↔ py_len n_layers_down = n_pool ∧ py_len n_layers_up ≠ n_pool) ∧
  (r = Raise (ValueError "`n_layers_down` must be length `n_pool`")
   ↔ py_len n_layers_down ≠ n_pool) ∧
  (r = Raise (ValueError "`n_layers_up` must be length `n_pool`")
   ↔ py_len n_layers_down = n_pool ∧ py_len n_layers_up = n_pool).
Proof.
  intros r. unfold r, check_lengths.
  destruct (decide (py_len n_layers_down = n_pool)) as [Hd|Hd];
    [rewrite (bool_decide_eq_false_2 (_ ≠ _)) by (intros ?; done)
    |rewrite (bool_decide_eq_true_2 (_ ≠ _)) by done];
    [destruct (decide (py_len n_layers_up = n_pool)) as [Hu|Hu];
     [rewrite bool_decide_eq_true_2 by done
     |rewrite bool_decide_eq_false_2 by done]|];
    repeat split; try done; try (intros [? ?]; done).
Qed.

Lemma skip_for_stage_mod {A} (dblock_outs : list A) (i : Z) :
  0 ≤ i < py_len dblock_outs →
  skip_for_stage dblock_outs i
  = py_index dblock_outs ((py_len dblock_outs - i) `mod` py_len dblock_outs) ∧
  ∃ a, skip_for_stage dblock_outs i = Ok a.
Proof.
  intros Hi.
  assert (skip_for_stage dblock_outs i
          = py_index dblock_outs
              ((py_len dblock_outs - i) `mod` py_len dblock_outs)) as Heq.
  { destruct (decide (i = 0)) as [->|Hne].
    - rewrite Z.sub_0_r, Z_mod_same_full. apply skip_for_stage_first.
    - rewrite Z.mod_small by lia. apply skip_for_stage_later. lia. }
  split; [done|]. rewrite Heq.
  set (j := (py_len dblock_outs - i) `mod` py_len dblock_outs).
  assert (0 ≤ j < py_len dblock_outs) as Hj
    by (apply Z.mod_pos_bound; lia).
  destruct (lookup_lt_is_Some_2 dblock_outs (Z.to_nat j)) as [a Ha];
    [unfold py_len in Hj; lia|].
  exists a. apply py_index_nonneg; [lia | done].
Qed.

(** Line 270 for every stage: with n cached encoder outputs and a stage
    0 <= i < n, [dblock_outs[-i]] is the entry at index (n - i) mod n. *)
Theorem skip_for_stage_index {A} (dblock_outs : list A) (i : Z) :
  0 ≤ i < py_len dblock_outs →
  skip_for_stage dblock_outs i
  = py_index dblock_outs ((py_len dblock_outs - i) `mod` py_len dblock_outs) ∧
  ∃ a, skip_for_stage dblock_outs i = Ok a.
Proof. apply skip_for_stage_mod. Qed.

(** When the cached encoder outputs are pairwise distinct, the entry a
    stage takes is the reverse pairing's entry n - 1 - i only for a single
    pooling stage. *)
Theorem skip_for_stage_reverse_only_single {A} (dblock_outs : list A) (i : Z) :
  NoDup dblock_outs →
  0 ≤ i < py_len dblock_outs →
  skip_for_stage dblock_outs i
  = py_index dblock_outs (py_len dblock_outs - 1 - i)
  ↔ py_len dblock_outs = 1.
Proof.
  intros Hnd Hi. unfold py_len in *.
  destruct (skip_for_stage_mod dblock_outs i Hi) as [Heq _].
  rewrite Heq. unfold py_len in *.
  set (n := Z.of_nat (length dblock_outs)) in *.
  set (j := (n - i) `mod` n).
  assert (0 ≤ j < n) as Hj by (apply Z.mod_pos_bound; lia).
  assert (j = n - 1 - i ↔ n = 1) as Hidx.
  { unfold j. destruct (decide (i = 0)) as [->|Hne].
    - rewrite Z.sub_0_r, Z_mod_same_full. lia.
    - rewrite Z.mod_small by lia. lia. }
  destruct (lookup_lt_is_Some_2 dblock_outs (Z.to_nat j)) as [a Ha];
    [unfold n in Hj; lia|].
  destruct (lookup_lt_is_Some_2 dblock_outs (Z.to_nat (n - 1 - i)))
    as [b Hb]; [unfold n in *; lia|].
  rewrite (py_index_nonneg _ j a) by (done || lia).
  rewrite (py_index_nonneg _ (n - 1 - i) b) by (done || lia).
  split.
  - intros [= ->]. apply Hidx.
    pose proof (NoDup_lookup _ _ _ _ Hnd Ha Hb). lia.
  - intros Hn. apply Hidx in Hn. rewrite Hn in Ha. congruence.
Qed.

Section ForwardPass.
Context {V : Type} {T : Torch V}.

(** With at least one pooling stage the forward pass raises TypeError once
    the initial convolution has returned: the encoder loop calls [getattr]
    with the attribute name alone. *)
Theorem forward_raises_at_first_getattr (self : obj) (x y : tensor V)
    (conv0 : attr) (n_pool : Z) :
  self !! "conv0" = Some conv0 →
  call_module conv0 x = Ok y →
  self !! "n_pool" = Some (AInt n_pool) →
  0 < n_pool →
  DenseNet103_forward self x
  = Raise (TypeError "getattr expected at least 2 arguments, got 1").
Proof.
  intros Hc Hy Hn Hpos. unfold DenseNet103_forward, get_int, get_attr.
  rewrite Hc, !Hn. cbn [mbind result_bind as_int]. rewrite Hy.
  cbn [mbind result_bind]. unfold py_range.
  rewrite seqZ_cons by done. cbn [for_each].
  by rewrite forward_down_step_raises.
Qed.

(** Without pooling stages the forward pass skips the encoder loop and
    calls the bottleneck block on the initial convolution's output; when
    that convolution returns and the block's layer stack returns on its
    output, the forward pass raises NameError on the unbound name. *)
Theorem forward_without_stages_raises (self : obj) (x y out : tensor V)
    (conv0 : attr) (n_pool : Z) (blk : DenseBlock) :
  self !! "conv0" = Some conv0 →
  call_module conv0 x = Ok y →
  self !! "n_pool" = Some (AInt n_pool) →
  n_pool ≤ 0 →
  self !! "bottleneck" = Some (ADenseBlock blk) →
  Sequential_forward (db_block blk) y = Ok out →
  DenseNet103_forward self x = Raise (NameError "keep_input").
Proof.
  intros Hc Hy Hn Hle Hb Hout. unfold DenseNet103_forward, get_int, get_attr.
  rewrite Hc, !Hn, Hb. cbn [mbind result_bind as_int]. rewrite Hy.
  cbn [mbind result_bind]. unfold py_range.
  rewrite seqZ_nil by done. cbn [for_each mbind result_bind call_module].
  by rewrite (DenseBlock_forward_after_stack blk y out Hout).
Qed.

End ForwardPass.

(** ** The further properties at concrete inputs *)

Lemma modules_reject_channel_mismatch_witness :
  raises (DenseLayer_forward (DenseLayer_init 3 16) (ramp 1 2 4 4)) ∧
  raises (TransitionDown_forward (TransitionDown_init 3 None) (ramp 1 2 4 4)) ∧
  raises (TransitionUp_forward (TransitionUp_init 3 None) (ramp 1 2 4 4)).
Proof.
  apply (modules_reject_channel_mismatch (T := ref_torch) 3 16 None
           (ramp 1 2 4 4)).
  vm_compute. discriminate.
Defined.


Lemma down_then_up_spatial_witness :
  ∃ y z,
    TransitionDown_forward (TransitionDown_init 3 None) (ramp 1 3 4 5) = Ok y ∧
    TransitionUp_forward (TransitionUp_init 3 None) y = Ok z ∧
    batch z = 1 ∧ channels z = 3 ∧
    height z = 4 + (1 - 4 `mod` 2) ∧
    width z = 5 + (1 - 5 `mod` 2).
Proof.
  apply (down_then_up_spatial (T := ref_torch) 3 (ramp 1 3 4 5));
    first [reflexivity | simpl; lia].
Defined.

Lemma build_block_layers_witness :
  length (DenseBlock_build_block 2 3 16) = Z.to_nat 2 ∧
  ∀ i : nat, (i < Z.to_nat 2)%nat →
    ∃ l, DenseBlock_build_block 2 3 16 !! i = Some l ∧
         dl_n_channels l = 3 + Z.of_nat i * 16 ∧
         0 < dl_n_channels l ∧
         num_features (dl_bn l) = dl_n_channels l ∧
         in_channels (dl_conv l) = dl_n_channels l ∧
         out_channels (dl_conv l) = 16.
Proof. apply (build_block_layers 2 3 16); lia. Defined.

Lemma DenseBlock_stack_channels_witness :
  ∃ out,
    Sequential_forward (db_block (DenseBlock_init 2 3 16 false))
      (ramp 1 3 4 4) = Ok out ∧
    batch out = 1 ∧ height out = 4 ∧ width out = 4 ∧
    channels out = 3 + 16 * 2 ∧
    channels out = 3 + db_n_channels_out (DenseBlock_init 2 3 16 false).
Proof.
  apply (DenseBlock_stack_channels (T := ref_torch) 2 3 16 false
           (ramp 1 3 4 4));
    [lia | lia | reflexivity | repeat split; simpl; lia | by vm_compute].
Defined.

Lemma DenseBlock_stack_keeps_input_witness :
  ∃ out,
    Sequential_forward (db_block (DenseBlock_init 2 3 16 true))
      (ramp 1 3 4 4) = Ok out ∧
    ∀ b c h w, 0 ≤ c < 3 → at_ out b c h w = at_ (ramp 1 3 4 4) b c h w.
Proof.
  apply (DenseBlock_stack_keeps_input (T := ref_torch) 2 3 16 true
           (ramp 1 3 4 4));
    [lia | reflexivity | repeat split; simpl; lia | by vm_compute].
Defined.

Lemma DenseBlock_empty_stack_witness :
  db_block (DenseBlock_init 0 3 16 true) = [] ∧
  Sequential_forward (db_block (DenseBlock_init 0 3 16 true)) (ramp 1 5 4 4)
  = Ok (ramp 1 5 4 4) ∧
  DenseBlock_forward (DenseBlock_init 0 3 16 true) (ramp 1 5 4 4)
  = Raise (NameError "keep_input").
Proof.
  apply (DenseBlock_empty_stack (T := ref_torch) 0 3 16 true (ramp 1 5 4 4)).
  lia.
Defined.

Lemma DenseBlock_stack_rejects_mismatch_witness :
  ∃ e,
    Sequential_forward (db_block (DenseBlock_init 2 3 16 true)) (ramp 1 5 4 4)
    = Raise e ∧
    DenseBlock_forward (DenseBlock_init 2 3 16 true) (ramp 1 5 4 4) = Raise e.
Proof.
  apply (DenseBlock_stack_rejects_mismatch (T := ref_torch) 2 3 16 true
           (ramp 1 5 4 4)); [lia|].
  vm_compute. discriminate.
Defined.

Lemma one_stage_down : build_down 1 one_stage_fields = Ok one_stage_after_down.
Proof.
  unfold build_down.
  replace (get_int one_stage_fields "n_channels_first") with (Ok 8)
    by (by vm_compute).
  cbn [mbind result_bind]. change (py_range 1) with [0]. cbn [for_each].
  rewrite (down_step_ok one_stage_fields [2] 8 0 2 16);
    [reflexivity | by vm_compute | reflexivity | by vm_compute].
Qed.

Lemma one_stage_up :
  build_up 1 one_stage_with_bottleneck = Ok one_stage_after_up.
Proof.
  unfold build_up.
  replace (get_attr one_stage_with_bottleneck "bottleneck")
    with (Ok (ADenseBlock one_stage_bottleneck)) by (by vm_compute).
  cbn [mbind result_bind n_channels_out_of].
  change (py_range 1) with [0]. cbn [for_each].
  rewrite (up_step_ok one_stage_with_bottleneck [2; 2] _ 0 2 16);
    [reflexivity | by vm_compute | reflexivity | by vm_compute].
Qed.

Lemma build_down_frame_witness :
  one_stage_after_down !! "n_layers_up" = one_stage_fields !! "n_layers_up".
Proof.
  apply (build_down_frame 1 one_stage_fields one_stage_after_down
           "n_layers_up" one_stage_down).
  intros i _. split; done.
Defined.

Lemma build_bottleneck_after_down_witness :
  build_bottleneck one_stage_after_down = Raise (AttributeError "dblock4").
Proof.
  apply (build_bottleneck_after_down 1 one_stage_fields one_stage_after_down).
  - vm_compute. reflexivity.
  - exact one_stage_down.
Defined.

Lemma build_down_chain_witness :
  ∃ self', build_down 2 (init_fields 16 2 3 8 [2; 3] [2]) = Ok self' ∧
    ∀ (i : nat) (n : Z), Z.of_nat i < 2 → [2; 3] !! i = Some n →
      let c := 8 + 16 * foldr Z.add 0 (take i [2; 3]) in
      0 < c ∧
      stage_channels self' ("down_dblock" +:+ py_str (Z.of_nat i))
      = Some (c, c + 16 * n) ∧
      stage_channels self' ("td" +:+ py_str (Z.of_nat i))
      = Some (c + 16 * n, c + 16 * n) ∧
      8 + 16 * foldr Z.add 0 (take (S i) [2; 3]) = c + 16 * n.
Proof.
  apply (build_down_chain (init_fields 16 2 3 8 [2; 3] [2]) [2; 3] 16 8 2);
    [vm_compute; reflexivity | vm_compute; reflexivity
    | vm_compute; reflexivity | unfold py_len; cbn; lia | lia | lia
    | repeat constructor; lia].
Defined.

Lemma build_up_frame_witness :
  one_stage_after_up !! "down_dblock0"
  = one_stage_with_bottleneck !! "down_dblock0".
Proof.
  apply (build_up_frame 1 one_stage_with_bottleneck one_stage_after_up
           "down_dblock0" one_stage_up).
  intros i _. split; done.
Defined.

Lemma build_conv1_after_up_witness :
  build_conv1 one_stage_after_up
  = Raise (AttributeError ("up_dblock" +:+ py_str 1)).
Proof.
  apply (build_conv1_after_up 1 one_stage_with_bottleneck one_stage_after_up).
  - vm_compute. reflexivity.
  - vm_compute. reflexivity.
  - exact one_stage_up.
Defined.

Lemma build_up_declared_witness :
  ∃ self', build_up 1 one_stage_with_bottleneck = Ok self' ∧
    ∀ (i : nat) (n : Z), Z.of_nat i < 1 → [2; 2] !! i = Some n →
      let c := match i with
               | O => db_n_channels_out one_stage_bottleneck
               | S i' => 16 * default 0 ([2; 2] !! i')
               end in
      0 < c ∧ 0 < 16 * n ∧
      stage_channels self' ("tu" +:+ py_str (Z.of_nat i)) = Some (c, c) ∧
      stage_channels self' ("up_dblock" +:+ py_str (Z.of_nat i))
      = Some (c, 16 * n).
Proof.
  apply (build_up_declared one_stage_with_bottleneck [2; 2]
           one_stage_bottleneck 16 1);
    [vm_compute; reflexivity | vm_compute; reflexivity
    | vm_compute; reflexivity | unfold py_len; cbn; lia | lia
    | by vm_compute | repeat constructor; lia].
Defined.

Lemma build_up_short_list_witness :
  build_up 3 one_stage_with_bottleneck
  = Raise (IndexError "list index out of range").
Proof.
  apply (build_up_short_list one_stage_with_bottleneck [2; 2]
           one_stage_bottleneck 16 3);
    [vm_compute; reflexivity | vm_compute; reflexivity
    | vm_compute; reflexivity | unfold py_len; cbn; lia | lia
    | by vm_compute | repeat constructor; lia].
Defined.

Lemma skip_for_stage_index_witness :
  skip_for_stage [10; 20; 30] 1
  = py_index [10; 20; 30] ((py_len [10; 20; 30] - 1) `mod` py_len [10; 20; 30])
  ∧ ∃ a, skip_for_stage [10; 20; 30] 1 = Ok a.
Proof.
  apply (skip_for_stage_index [10; 20; 30] 1). unfold py_len; cbn; lia.
Defined.

Lemma skip_for_stage_reverse_only_single_witness :
  skip_for_stage [10; 20; 30] 1
  = py_index [10; 20; 30] (py_len [10; 20; 30] - 1 - 1)
  ↔ py_len [10; 20; 30] = 1.
Proof.
  apply (skip_for_stage_reverse_only_single [10; 20; 30] 1).
  - apply (bool_decide_unpack _). by vm_compute.
  - unfold py_len; cbn; lia.
Defined.

Lemma forward_raises_at_first_getattr_witness :
  DenseNet103_forward
    (<["conv0" := AConv2d (mkConv2d 3 8 3 1 1 true)]> one_stage_after_up)
    (ramp 1 3 4 4)
  = Raise (TypeError "getattr expected at least 2 arguments, got 1").
Proof.
  eapply (forward_raises_at_first_getattr (T := ref_torch) _ (ramp 1 3 4 4)
            _ (AConv2d (mkConv2d 3 8 3 1 1 true)) 1);
    [vm_compute; reflexivity | vm_compute; reflexivity
    | vm_compute; reflexivity | lia].
Defined.

Lemma forward_without_stages_raises_witness :
  DenseNet103_forward
    (<["bottleneck" := ADenseBlock (DenseBlock_init 15 8 16 true)]>
       (<["conv0" := AConv2d (mkConv2d 3 8 3 1 1 true)]>
          (init_fields 16 0 3 8 [] [2])))
    (ramp 1 3 4 4)
  = Raise (NameError "keep_input").
Proof.
  eapply (forward_without_stages_raises (T := ref_torch) _ (ramp 1 3 4 4)
            _ _ (AConv2d (mkConv2d 3 8 3 1 1 true)) 0
            (DenseBlock_init 15 8 16 true));
    [vm_compute; reflexivity | vm_compute; reflexivity
    | vm_compute; reflexivity | lia | vm_compute; reflexivity
    | vm_compute; reflexivity].
Defined.
